(** * AB ETF live AUM dashboard: the valuation pipeline of [app.py]

    A shallow embedding of the price resolver, the shares resolver, the
    overrides load and the valuation pass of [app.py], with the properties
    of the pipeline proved about the embedding.

    Python values are an inductive type; floats are IEEE-754 binary64 values
    ([spec_float] with precision 53 and maximal exponent 1024), computed with
    the operations of [SpecFloat]; exceptions are an error monad; dicts are
    finite maps; a pandas [DataFrame] is a list of rows. *)

From Stdlib Require Import ZArith String Ascii List Bool Lia.
From Stdlib Require Import Floats.SpecFloat.
From stdpp Require Import base option gmap strings list.
Import ListNotations.

Local Open Scope string_scope.
Local Open Scope Z_scope.

(* ===================================================================== *)
(** * Python: exceptions, floats, values and builtins                     *)
(* ===================================================================== *)

Module Py.

(** Exceptions raised by the builtins and the libraries the program calls.
    All of them derive from [Exception], so [except Exception] catches
    every one. *)
Inductive exn :=
| TypeError | ValueError | OverflowError | ZeroDivisionError
| KeyError | IndexError | AttributeError | OSError.

Inductive result (A : Type) :=
| Ok (a : A)
| Raise (e : exn).
Arguments Ok {A} a.
Arguments Raise {A} e.

Definition bind {A B} (r : result A) (k : A -> result B) : result B :=
  match r with
  | Ok a => k a
  | Raise e => Raise e
  end.

#[global] Instance result_ret : MRet result := @Ok.
#[global] Instance result_bind : MBind result := fun A B k r => bind r k.

(** [try: body / except Exception: handler] *)
Definition try_except {A} (body : result A) (handler : result A) : result A :=
  match body with
  | Ok a => Ok a
  | Raise _ => handler
  end.

Definition of_option {A} (o : option A) (e : exn) : result A :=
  match o with
  | Some a => Ok a
  | None => Raise e
  end.

Fixpoint mapM {A B} (f : A -> result B) (l : list A) : result (list B) :=
  match l with
  | [] => Ok []
  | a :: l' => b ← f a; bs ← mapM f l'; Ok (b :: bs)
  end.

(** ** binary64 floats *)

Definition float := spec_float.
Definition prec : Z := 53.
Definition emax : Z := 1024.

Definition fadd : float -> float -> float := SFadd prec emax.
Definition fmul : float -> float -> float := SFmul prec emax.
Definition fdiv : float -> float -> float := SFdiv prec emax.

Definition fzero : float := S754_zero false.
Definition fnan : float := S754_nan.

(** [math.isnan(x)] *)
Definition isnan (x : float) : bool :=
  match x with
  | S754_nan => true
  | _ => false
  end.

(** [x == 0] on a float: both signed zeros, nothing else *)
Definition float_is_zero (x : float) : bool :=
  match x with
  | S754_zero _ => true
  | _ => false
  end.

(** [x > 0] on a float (false on NaN) *)
Definition float_gt0 (x : float) : bool := SFltb fzero x.

(** [float(n)] on an int: the nearest binary64 (ties to even), and
    [OverflowError] when the int is too large *)
Definition float_of_int (n : Z) : result float :=
  match binary_normalize prec emax n 0 false with
  | S754_infinity _ => Raise OverflowError
  | x => Ok x
  end.

(** The integer part of the finite float [(-1)^s * m * 2^e], towards zero. *)
Definition trunc_finite (s : bool) (m : positive) (e : Z) : Z :=
  cond_Zopp s (if 0 <=? e then Z.pos m * 2 ^ e else Z.pos m / 2 ^ (- e)).

(** Its floor, towards minus infinity. *)
Definition floor_finite (s : bool) (m : positive) (e : Z) : Z :=
  if 0 <=? e then cond_Zopp s (Z.pos m) * 2 ^ e
  else cond_Zopp s (Z.pos m) / 2 ^ (- e).

(** [int(x)] on a float: truncation towards zero; [ValueError] on NaN and
    [OverflowError] on an infinity *)
Definition int_of_float (x : float) : result Z :=
  match x with
  | S754_nan => Raise ValueError
  | S754_infinity _ => Raise OverflowError
  | S754_zero _ => Ok 0
  | S754_finite s m e => Ok (trunc_finite s m e)
  end.

(** [math.floor(x)] on a float *)
Definition floor_of_float (x : float) : result Z :=
  match x with
  | S754_nan => Raise ValueError
  | S754_infinity _ => Raise OverflowError
  | S754_zero _ => Ok 0
  | S754_finite s m e => Ok (floor_finite s m e)
  end.

(** [a / b] on floats: [ZeroDivisionError] on a zero divisor *)
Definition float_div (a b : float) : result float :=
  if float_is_zero b then Raise ZeroDivisionError else Ok (fdiv a b).

(** ** Values *)

(** The values the program meets in the provider's dicts and in the cells
    of a data frame. [VObj] stands for any other object (a list, a dict),
    of which only the truth value matters. *)
Inductive pyval :=
| VNone
| VBool (b : bool)
| VInt (n : Z)
| VFloat (x : float)
| VStr (s : string)
| VObj (truth : bool).

(** What the interpreter and the libraries do outside this repository:
    the grammar of [float(s)] and [int(s)] on a string ([None] is a
    [ValueError]), the order in which numpy adds up a float64 array, and the
    result of the C cast of a double that does not fit in 64 bits. *)
Class Runtime := {
  float_of_str : string -> option float;
  int_of_str : string -> option Z;
  np_sum : list float -> float;
  int64_of_big_double : float -> Z
}.

(** What holds of [np.sum] on a float64 array in whatever order the
    elements are added: the sum of zeros (and of no element) is a zero, and a
    NaN among the elements makes the sum NaN. *)
Definition np_sum_lawful (RT : Runtime) : Prop :=
  (forall xs, forallb float_is_zero xs = true -> float_is_zero (np_sum xs) = true)
  /\ (forall xs, existsb isnan xs = true -> isnan (np_sum xs) = true).

Section Builtins.
Context {RT : Runtime}.

(** [bool(v)] *)
Definition truthy (v : pyval) : bool :=
  match v with
  | VNone => false
  | VBool b => b
  | VInt n => negb (n =? 0)
  | VFloat x => negb (float_is_zero x)
  | VStr s => negb (String.eqb s "")
  | VObj t => t
  end.

(** [a or b] *)
Definition py_or (a b : pyval) : pyval := if truthy a then a else b.

(** [float(v)] *)
Definition py_float (v : pyval) : result float :=
  match v with
  | VNone => Raise TypeError
  | VBool b => Ok (if b then binary_normalize prec emax 1 0 false else fzero)
  | VInt n => float_of_int n
  | VFloat x => Ok x
  | VStr s => of_option (float_of_str s) ValueError
  | VObj _ => Raise TypeError
  end.

(** [int(v)] *)
Definition py_int (v : pyval) : result Z :=
  match v with
  | VNone => Raise TypeError
  | VBool b => Ok (Z.b2z b)
  | VInt n => Ok n
  | VFloat x => int_of_float x
  | VStr s => of_option (int_of_str s) ValueError
  | VObj _ => Raise TypeError
  end.

(** [isinstance(v, (int, float))]; [bool] is a subclass of [int] *)
Definition is_int_or_float (v : pyval) : bool :=
  match v with
  | VBool _ | VInt _ | VFloat _ => true
  | _ => false
  end.

(** [v > 0] on a value for which [is_int_or_float] holds *)
Definition num_gt0 (v : pyval) : bool :=
  match v with
  | VBool b => b
  | VInt n => 0 <? n
  | VFloat x => float_gt0 x
  | _ => false
  end.

(** [x * n] with [x] a float and [n] an int: the int is converted first *)
Definition float_mul_int (x : float) (n : Z) : result float :=
  y ← float_of_int n; Ok (fmul x y).

(** [d.get(k)] *)
Definition dict_get (d : gmap string pyval) (k : string) : pyval :=
  default VNone (d !! k).

(** [s.upper()], on ASCII strings *)
Definition upper_ascii (c : ascii) : ascii :=
  let n := nat_of_ascii c in
  if ((97 <=? n) && (n <=? 122))%nat then ascii_of_nat (n - 32) else c.

Fixpoint upper (s : string) : string :=
  match s with
  | EmptyString => EmptyString
  | String c s' => String (upper_ascii c) (upper s')
  end.

End Builtins.

End Py.


Import Py.

(* ===================================================================== *)
(** * pandas: the data-frame operations the program uses                  *)
(* ===================================================================== *)

Module Pandas.

(** A frame is its column labels and its rows, in order; a row maps a
    column label to the cell. A cell that a row does not hold reads as NaN,
    the missing value of pandas. *)
Record DataFrame := mkDataFrame {
  df_columns : list string;
  df_rows : list (gmap string pyval)
}.

(** [pd.DataFrame(columns=cols)] *)
Definition empty_frame (cols : list string) : DataFrame := mkDataFrame cols [].

Definition has_column (df : DataFrame) (col : string) : bool :=
  bool_decide (col ∈ df_columns df).

Definition cell (r : gmap string pyval) (col : string) : pyval :=
  default (VFloat fnan) (r !! col).

(** [pd.isna(v)] *)
Definition isna (v : pyval) : bool :=
  match v with
  | VNone => true
  | VFloat x => isnan x
  | _ => false
  end.

(** [df.empty] *)
Definition empty (df : DataFrame) : bool :=
  match df_columns df, df_rows df with
  | [], _ | _, [] => true
  | _, _ => false
  end.

(** [df[col]], the cells of a column; [KeyError] without the column *)
Definition getitem (df : DataFrame) (col : string) : result (list pyval) :=
  if has_column df col then Ok (map (fun r => cell r col) (df_rows df))
  else Raise KeyError.

(** [df[col] = values], with one value per row *)
Definition setitem (df : DataFrame) (col : string) (values : list pyval) : DataFrame :=
  mkDataFrame
    (if has_column df col then df_columns df else df_columns df ++ [col])
    (zip_with (fun r v => <[col := v]> r) (df_rows df) values).

(** The dtype of a column read from a file is numeric when it has a row and
    all its cells are numbers or booleans, and [object] otherwise. *)
Definition is_numeric_cell (v : pyval) : bool :=
  match v with
  | VBool _ | VInt _ | VFloat _ => true
  | _ => false
  end.

Definition is_object_column (cells : list pyval) : bool :=
  match cells with
  | [] => true
  | _ => negb (forallb is_numeric_cell cells)
  end.

(** [series.str.upper()]: [AttributeError] on a numeric column; in an
    [object] column a cell that is not a string becomes NaN *)
Definition upper_cell (v : pyval) : pyval :=
  match v with
  | VStr s => VStr (upper s)
  | _ => VFloat fnan
  end.

Definition str_upper (cells : list pyval) : result (list pyval) :=
  if is_object_column cells then Ok (map upper_cell cells)
  else Raise AttributeError.

(** [df.dropna(subset=cols)]: [KeyError] when a column of [cols] is not in
    the frame; keeps the rows with no missing cell in [cols] *)
Definition no_missing (subset : list string) (r : gmap string pyval) : bool :=
  forallb (fun c => negb (isna (cell r c))) subset.

Definition dropna (df : DataFrame) (subset : list string) : result DataFrame :=
  if forallb (has_column df) subset then
    Ok (mkDataFrame (df_columns df) (List.filter (no_missing subset) (df_rows df)))
  else Raise KeyError.

Definition in_int64 (n : Z) : bool := (- 2 ^ 63 <=? n) && (n <? 2 ^ 63).

Section Casts.
Context {RT : Runtime}.

(** One cell of [series.astype(int)]: a float is truncated, a NaN or an
    infinity is refused, a string is parsed. *)
Definition astype_int_cell (v : pyval) : result pyval :=
  match v with
  | VBool b => Ok (VInt (Z.b2z b))
  | VInt n => Ok (VInt n)
  | VFloat x =>
      match x with
      | S754_nan | S754_infinity _ => Raise ValueError
      | S754_zero _ => Ok (VInt 0)
      | S754_finite s m e =>
          let n := trunc_finite s m e in
          Ok (VInt (if in_int64 n then n else int64_of_big_double x))
      end
  | VStr s =>
      match int_of_str s with
      | None => Raise ValueError
      | Some n => if in_int64 n then Ok (VInt n) else Raise OverflowError
      end
  | VNone | VObj _ => Raise TypeError
  end.

(** [series.astype(int)] *)
Definition astype_int (cells : list pyval) : result (list pyval) :=
  mapM astype_int_cell cells.

End Casts.

(** [df.loc[df[col] == s]] with [s] a string: the rows whose cell in [col]
    is that string *)
Definition cell_eq_str (v : pyval) (s : string) : bool :=
  match v with
  | VStr s' => String.eqb s' s
  | _ => false
  end.

Definition row_matches (col : string) (s : string) (r : gmap string pyval) : bool :=
  cell_eq_str (cell r col) s.

Definition loc_eq (df : DataFrame) (col : string) (s : string) : result DataFrame :=
  if has_column df col then
    Ok (mkDataFrame (df_columns df) (List.filter (row_matches col s) (df_rows df)))
  else Raise KeyError.

(** [df.iloc[0][col]] and [df.iloc[-1][col]] *)
Definition row_getitem (df : DataFrame) (r : option (gmap string pyval)) (col : string)
  : result pyval :=
  match r with
  | None => Raise IndexError
  | Some r => if has_column df col then Ok (cell r col) else Raise KeyError
  end.

Definition iloc_first (df : DataFrame) (col : string) : result pyval :=
  row_getitem df (head (df_rows df)) col.

Definition iloc_last (df : DataFrame) (col : string) : result pyval :=
  row_getitem df (last (df_rows df)) col.

End Pandas.

Import Pandas.

(* ===================================================================== *)
(** * app.py                                                              *)
(* ===================================================================== *)

(** The outside world as one refresh sees it: the three capabilities of the
    market-data provider and the file system behind [pd.read_csv]. Each call
    returns or raises. *)
Record World := {
  fast_info : string -> result (gmap string pyval);  (* yf.Ticker(t).fast_info *)
  get_info : string -> result (gmap string pyval);   (* yf.Ticker(t).get_info() *)
  info : string -> result (gmap string pyval);       (* yf.Ticker(t).info *)
  history : string -> result DataFrame;  (* .history(period="1d", interval="1m") *)
  read_csv : string -> result DataFrame
}.

Definition SHARES_OVERRIDE_CSV : string := "shares_overrides.csv".

(** One dict of [rows] *)
Record ValuationRow := mkRow {
  Ticker : string;
  Last_Price : option float;
  Shares_Outstanding : option Z;
  Est_AUM : option float
}.

Section App.
Context {RT : Runtime} (W : World).

Definition _get_fast_info (ticker : string) : gmap string pyval :=
  match fast_info W ticker with
  | Ok fi => fi
  | Raise _ => ∅
  end.

Definition _get_info (ticker : string) : gmap string pyval :=
  match get_info W ticker with
  | Ok d => d
  | Raise _ =>
      match info W ticker with
      | Ok d => d
      | Raise _ => ∅
      end
  end.

Definition _load_overrides (path : string) : DataFrame :=
  match
    df ← read_csv W path;
    tk ← getitem df "ticker";
    up ← str_upper tk;
    let df := setitem df "ticker" up in
    df ← dropna df ["ticker"; "shares_outstanding"];
    so ← getitem df "shares_outstanding";
    so ← astype_int so;
    Ok (setitem df "shares_outstanding" so)
  with
  | Ok df => df
  | Raise _ => empty_frame ["ticker"; "shares_outstanding"]
  end.

(** The test of the loop of [_get_last_price] on one field:
    [v is not None and not (isinstance(v, float) and math.isnan(v))] *)
Definition price_field_usable (v : pyval) : bool :=
  match v with
  | VNone => false
  | VFloat x => negb (isnan x)
  | _ => true
  end.

(** The loop over the field names: [Some x] when an iteration returns [x],
    [None] when the loop runs to its end. *)
Fixpoint scan_price_fields (fi : gmap string pyval) (keys : list string) : option float :=
  match keys with
  | [] => None
  | k :: keys' =>
      let v := dict_get fi k in
      if price_field_usable v then
        match py_float v with
        | Ok x => Some x
        | Raise _ => scan_price_fields fi keys'
        end
      else scan_price_fields fi keys'
  end.

Definition PRICE_FIELDS : list string :=
  ["last_price"; "regularMarketPrice"; "currentPrice"].

Definition _get_last_price (ticker : string) : option float :=
  let fi := _get_fast_info ticker in
  match scan_price_fields fi PRICE_FIELDS with
  | Some x => Some x
  | None =>
      (* last resort *)
      match
        hist ← history W ticker;
        if negb (empty hist) then
          c ← iloc_last hist "Close";
          x ← py_float c;
          Ok (Some x)
        else Ok None
      with
      | Ok r => r
      | Raise _ => None
      end
  end.

(** [last_price and last_price > 0] *)
Definition price_usable (last_price : option float) : bool :=
  match last_price with
  | None => false
  | Some p => negb (float_is_zero p) && float_gt0 p
  end.

(** The [try] body of the total-assets fallback, up to [est_shares]:
    [int(float(total_assets) / float(last_price))] *)
Definition est_shares_of (total_assets : pyval) (last_price : option float) : result Z :=
  a ← py_float total_assets;
  p ← of_option last_price TypeError;
  q ← float_div a p;
  int_of_float q.

(** [info.get("totalAssets") or info.get("netAssets")] *)
Definition total_assets_of (info : gmap string pyval) : pyval :=
  py_or (dict_get info "totalAssets") (dict_get info "netAssets").

(** Lines 122 to 130 of [_infer_shares_from_info]: what the function
    returns once the direct shares field has been passed over. *)
Definition total_assets_fallback (info : gmap string pyval) (last_price : option float)
  : option Z :=
  let total_assets := total_assets_of info in
  if truthy total_assets && price_usable last_price then
    match est_shares_of total_assets last_price with
    | Ok est_shares => if 0 <? est_shares then Some est_shares else None
    | Raise _ => None
    end
  else None.

Definition _infer_shares_from_info (ticker : string) (last_price : option float)
  : result (option Z) :=
  let info := _get_info ticker in
  let shares := py_or (dict_get info "sharesOutstanding")
                      (dict_get info "fundSharesOutstanding") in
  if is_int_or_float shares && num_gt0 shares then
    n ← py_int shares; Ok (Some n)
  else Ok (total_assets_fallback info last_price).

Definition _get_shares_outstanding (ticker : string) (last_price : option float)
    (overrides_df : DataFrame) : result (option Z) :=
  row ← loc_eq overrides_df "ticker" ticker;
  if negb (empty row) then
    c ← iloc_first row "shares_outstanding";
    val ← py_int c;
    if 0 <? val then Ok (Some val)
    else _infer_shares_from_info ticker last_price
  else _infer_shares_from_info ticker last_price.

(** [price * shares if (price is not None and shares is not None) else None] *)
Definition est_aum_of (price : option float) (shares : option Z) : result (option float) :=
  match price, shares with
  | Some p, Some n => x ← float_mul_int p n; Ok (Some x)
  | _, _ => Ok None
  end.

(** The loop of the FETCH block, from the lists built so far. *)
Fixpoint fetch_loop (overrides : DataFrame) (tickers : list string)
    (rows : list ValuationRow) (missing : list string)
  : result (list ValuationRow * list string) :=
  match tickers with
  | [] => Ok (rows, missing)
  | t :: tickers' =>
      let price := _get_last_price t in
      shares ← _get_shares_outstanding t price overrides;
      est_aum ← est_aum_of price shares;
      let rows := (rows ++ [mkRow t price shares est_aum])%list in
      let missing := if shares is None then (missing ++ [t])%list else missing in
      fetch_loop overrides tickers' rows missing
  end.

Definition fetch (tickers : list string) : result (list ValuationRow * list string) :=
  let overrides := _load_overrides SHARES_OVERRIDE_CSV in
  fetch_loop overrides (map upper tickers) [] [].

(** [np.nansum]: NaN replaced by zero, then numpy's sum *)
Definition nan_to_zero (x : float) : float := if isnan x then fzero else x.

Definition np_nansum (xs : list float) : float := np_sum (map nan_to_zero xs).

(** The AUM values the comprehension of [total_est] keeps *)
Definition present_aums (rows : list ValuationRow) : list float :=
  omap Est_AUM rows.

Definition total_est (rows : list ValuationRow) : float :=
  match rows with
  | [] => fzero
  | _ => np_nansum (present_aums rows)
  end.

End App.

(* ===================================================================== *)
(** * Vocabulary of the properties                                        *)
(* ===================================================================== *)

(** The rows of a parsed overrides file that [_load_overrides] keeps: the
    ticker upper-cased, then the rows without a ticker or without a count
    dropped. *)
Definition kept_rows (df0 : DataFrame) : list (gmap string pyval) :=
  List.filter (no_missing ["ticker"; "shares_outstanding"])
    (map (fun r => <["ticker" := upper_cell (cell r "ticker")]> r) (df_rows df0)).

Section Vocabulary.
Context {RT : Runtime} (W : World).

(** Row [r] is what one iteration of the loop builds for ticker [t]. *)
Definition resolved (overrides : DataFrame) (t : string) (r : ValuationRow) : Prop :=
  Ticker r = t
  /\ Last_Price r = _get_last_price W t
  /\ _get_shares_outstanding W t (Last_Price r) overrides = Ok (Shares_Outstanding r)
  /\ est_aum_of (Last_Price r) (Shares_Outstanding r) = Ok (Est_AUM r).

Definition shares_missing (r : ValuationRow) : bool :=
  if Shares_Outstanding r is None then true else false.

(** A field value the loop of [_get_last_price] returns as [x], and one it
    passes over. *)
Definition field_accepted (v : pyval) (x : float) : Prop :=
  price_field_usable v = true /\ py_float v = Ok x.

Definition field_rejected (v : pyval) : Prop :=
  price_field_usable v = false \/ exists e, py_float v = Raise e.

(** The ways the body of [_load_overrides] can raise: the file cannot be
    read or parsed; a required column is missing; the ticker column holds no
    strings, so that [.str] is refused; a count that is left after [dropna]
    cannot be cast to an integer (text, an infinity). *)
Inductive load_failure (path : string) : Prop :=
| read_failure e :
    read_csv W path = Raise e -> load_failure path
| missing_column df0 :
    read_csv W path = Ok df0 ->
    has_column df0 "ticker" = false \/ has_column df0 "shares_outstanding" = false ->
    load_failure path
| ticker_not_text df0 :
    read_csv W path = Ok df0 ->
    has_column df0 "ticker" = true ->
    is_object_column (map (fun r => cell r "ticker") (df_rows df0)) = false ->
    load_failure path
| bad_count df0 e :
    read_csv W path = Ok df0 ->
    has_column df0 "ticker" = true ->
    is_object_column (map (fun r => cell r "ticker") (df_rows df0)) = true ->
    astype_int (map (fun r => cell r "shares_outstanding") (kept_rows df0)) = Raise e ->
    load_failure path.

(** The total as the specification words it: the sum of the AUM values
    that are present. *)
Definition sum_of_present_aums (rows : list ValuationRow) : float :=
  np_sum (present_aums rows).

End Vocabulary.

(* ===================================================================== *)
(** * A runtime and some worlds to run the program on                     *)
(* ===================================================================== *)

Module Run.

(** The binary64 nearest to [m * 2^e] *)
Definition f64 (m e : Z) : float := binary_normalize prec emax m e false.

Fixpoint digits_value (s : string) (acc : Z) : option Z :=
  match s with
  | EmptyString => Some acc
  | String c s' =>
      let n := nat_of_ascii c in
      if ((48 <=? n) && (n <=? 57))%nat
      then digits_value s' (10 * acc + Z.of_nat (n - 48))
      else None
  end.

Definition parse_digits (s : string) : option Z :=
  match s with
  | EmptyString => None
  | _ => digits_value s 0
  end.

(** Summation from left to right, starting from [0.0] *)
Definition seq_sum (xs : list float) : float := fold_left fadd xs fzero.

(** A runtime in which a string of decimal digits parses as that number and
    any other string is refused, arrays are summed from left to right, and
    the cast of a double that is too large yields the least int64. *)
Definition runtime : Runtime := {|
  float_of_str s := (fun n => f64 n 0) <$> parse_digits s;
  int_of_str := parse_digits;
  np_sum := seq_sum;
  int64_of_big_double _ := - 2 ^ 63
|}.

(** A world in which every call fails. *)
Definition offline : World := {|
  fast_info _ := Raise OSError;
  get_info _ := Raise OSError;
  info _ := Raise OSError;
  history _ := Raise OSError;
  read_csv _ := Raise OSError
|}.

Definition with_quote (t : string) (fi : gmap string pyval) (W : World) : World := {|
  fast_info t' := if String.eqb t' t then Ok fi else fast_info W t';
  get_info := get_info W;
  info := info W;
  history := history W;
  read_csv := read_csv W
|}.

Definition with_fundamentals (t : string) (d : gmap string pyval) (W : World) : World := {|
  fast_info := fast_info W;
  get_info t' := if String.eqb t' t then Ok d else get_info W t';
  info := info W;
  history := history W;
  read_csv := read_csv W
|}.

Definition with_history (t : string) (h : DataFrame) (W : World) : World := {|
  fast_info := fast_info W;
  get_info := get_info W;
  info := info W;
  history t' := if String.eqb t' t then Ok h else history W t';
  read_csv := read_csv W
|}.

Definition with_csv (df : DataFrame) (W : World) : World := {|
  fast_info := fast_info W;
  get_info := get_info W;
  info := info W;
  history := history W;
  read_csv path := if String.eqb path SHARES_OVERRIDE_CSV then Ok df else read_csv W path
|}.

(** A parsed overrides file with the two columns and the given rows. *)
Definition overrides_csv (rows : list (pyval * pyval)) : DataFrame :=
  mkDataFrame ["ticker"; "shares_outstanding"]
    (map (fun r => <["ticker" := r.1]> (<["shares_outstanding" := r.2]> ∅)) rows).

End Run.


(** Worlds and rows for the examples *)
Module Scenarios.
Import Run.

Definition override_row (t : string) (n : Z) : gmap string pyval :=
  <["ticker" := VStr t]> (<["shares_outstanding" := VInt n]> ∅).

(** Scenario 1 of the specification: [A] has price 10.0 and an override of
    1000 shares (written in lower case in the file); [B] has nothing. *)
Definition scenario1 : World :=
  with_csv (overrides_csv [(VStr "a", VInt 1000)])
    (with_quote "A" {[ "last_price" := VFloat (f64 10 0) ]} offline).

Definition scenario1_rows : list ValuationRow :=
  [ mkRow "A" (Some (f64 10 0)) (Some 1000) (Some (f64 10000 0));
    mkRow "B" None None None ].

(** Scenario 2: [C] has no shares field, total assets 5_000_000 and price 25.0. *)
Definition scenario2 : World :=
  with_fundamentals "C" {[ "totalAssets" := VInt 5000000 ]}
    (with_quote "C" {[ "currentPrice" := VFloat (f64 25 0) ]} offline).


(** An overrides file with two rows for the same ticker. *)
Definition duplicate_rows : DataFrame :=
  overrides_csv [(VStr "A", VInt 100); (VStr "A", VInt 200)].


(** An overrides file without the [shares_outstanding] column. *)
Definition one_column : World :=
  with_csv (mkDataFrame ["ticker"] [ {[ "ticker" := VStr "A" ]} ]) offline.

(** A provider that reports half a share outstanding. *)
Definition half_share : World :=
  with_fundamentals "LRGC" {[ "sharesOutstanding" := VFloat (f64 1 (-1)) ]} offline.

(** A quote whose second candidate field is negative, and one whose first
    is zero. *)
Definition negative_quote : World :=
  with_quote "LRGC" {[ "regularMarketPrice" := VFloat (SFopp (f64 2 0)) ]} offline.

Definition zero_quote : World :=
  with_quote "LRGC" {[ "last_price" := VFloat fzero ]} offline.

(** A row whose AUM is NaN (a NaN closing price times 1000 shares), and a
    world that produces it: no quote, a last bar whose close is NaN, and an
    override of 1000 shares. *)
Definition nan_row : ValuationRow := mkRow "LRGC" (Some fnan) (Some 1000) (Some fnan).

Definition nan_close : World :=
  with_csv (overrides_csv [(VStr "LRGC", VInt 1000)])
    (with_history "LRGC"
       (mkDataFrame ["Close"] [ {[ "Close" := VFloat (f64 30 0) ]};
                                {[ "Close" := VFloat fnan ]} ])
       offline).

End Scenarios.

Import Run Scenarios.

(* ===================================================================== *)
(** * app.py: the query parameters                                        *)
(* ===================================================================== *)

(** A value of the dict of query parameters: the current API
    ([st.query_params]) maps a key to a string, the legacy one
    ([st.experimental_get_query_params]) to a list of strings. *)
Inductive qvalue :=
| QStr (s : string)
| QList (items : list string).

(** The two calls into Streamlit; each returns or raises. *)
Record Streamlit := {
  query_params : result (gmap string string);
  experimental_get_query_params : result (gmap string (list string))
}.

Definition get_query_params (St : Streamlit) : gmap string qvalue :=
  match query_params St with
  | Ok d => QStr <$> d
  | Raise _ =>
      match experimental_get_query_params St with
      | Ok d => QList <$> d
      | Raise _ => ∅
      end
  end.

(** [v[0]]: the first character of a string, the first item of a list;
    [IndexError] when there is none *)
Definition index0 (v : qvalue) : result string :=
  match v with
  | QStr EmptyString => Raise IndexError
  | QStr (String c _) => Ok (String c EmptyString)
  | QList [] => Raise IndexError
  | QList (x :: _) => Ok x
  end.

(** [s.lower()], on ASCII strings *)
Definition lower_ascii (c : ascii) : ascii :=
  let n := nat_of_ascii c in
  if ((65 <=? n) && (n <=? 90))%nat then ascii_of_nat (n + 32) else c.

Fixpoint lower (s : string) : string :=
  match s with
  | EmptyString => EmptyString
  | String c s' => String (lower_ascii c) (lower s')
  end.

Definition DEFAULT_REFRESH_MS : Z := 15000.

Definition KIOSK_WORDS : list string := ["1"; "true"; "yes"; "y"].

(** [str(qp.get("kiosk", ["0"])[0]).lower() in ("1","true","yes","y")] *)
Definition kiosk (qp : gmap string qvalue) : result bool :=
  item ← index0 (default (QList ["0"]) (qp !! "kiosk"));
  Ok (bool_decide (lower item ∈ KIOSK_WORDS)).

(** Lines 59 to 62: [int(qp.get("refresh", [DEFAULT_REFRESH_MS])[0])], and
    the default on any exception *)
Definition refresh_ms {RT : Runtime} (qp : gmap string qvalue) : Z :=
  match qp !! "refresh" with
  | None => DEFAULT_REFRESH_MS
  | Some v =>
      match item ← index0 v; of_option (int_of_str item) ValueError with
      | Ok n => n
      | Raise _ => DEFAULT_REFRESH_MS
      end
  end.

(** ** More worlds *)

Module MoreScenarios.


(** The provider is down: every call to it raises. *)
Definition provider_down (W : World) : Prop :=
  forall t,
    (exists e, fast_info W t = Raise e) /\ (exists e, get_info W t = Raise e)
    /\ (exists e, info W t = Raise e) /\ (exists e, history W t = Raise e).

(** The direct shares figure [_infer_shares_from_info] reads for a ticker. *)
Definition direct_shares {RT : Runtime} (W : World) (t : string) : pyval :=
  py_or (dict_get (_get_info W t) "sharesOutstanding")
        (dict_get (_get_info W t) "fundSharesOutstanding").



(** Fundamentals whose [sharesOutstanding] is negative. *)
Definition bogus_shares : gmap string pyval :=
  {[ "sharesOutstanding" := VInt (-1) ]}.


(** Two bars, the last one closing at 31.5. *)
Definition two_bars : World :=
  with_history "LRGC"
    (mkDataFrame ["Close"] [ {[ "Close" := VFloat (f64 30 0) ]};
                             {[ "Close" := VFloat (f64 63 (-1)) ]} ])
    offline.

(** An overrides file that names [lrgc] in lower case. *)
Definition lower_case_file : World :=
  with_csv (overrides_csv [(VStr "hidv", VInt 5); (VStr "lrgc", VInt 1000)]) offline.


(** Fundamentals for [LRGC] with the negative [sharesOutstanding], and the
    same with a fund share count beside it. *)
Definition bogus_only : World := with_fundamentals "LRGC" bogus_shares offline.

Definition bogus_and_fund : World :=
  with_fundamentals "LRGC" (<["fundSharesOutstanding" := VInt 1000]> bogus_shares) offline.


(** The page opened with [?kiosk=true&refresh=10000] under the current API,
    and with an empty [kiosk] parameter. *)
Definition kiosk_true_url : Streamlit := {|
  query_params := Ok {[ "kiosk" := "true"; "refresh" := "10000" ]};
  experimental_get_query_params := Raise AttributeError
|}.

Definition kiosk_empty_url : Streamlit := {|
  query_params := Ok {[ "kiosk" := "" ]};
  experimental_get_query_params := Raise AttributeError
|}.

End MoreScenarios.

Import MoreScenarios.


(* ===================================================================== *)
(** * Properties                                                          *)
(* ===================================================================== *)

(** ** Floats: sign tests, truncation and floor *)

Lemma float_gt0_cases (x : float) :
  float_gt0 x = true ->
  x = S754_infinity false \/ exists m e, x = S754_finite false m e.
Proof.
  destruct x as [s|s| |s m e]; cbn; try discriminate.
  - destruct s; [discriminate | auto].
  - destruct s; [discriminate | eauto].
Qed.



Lemma floor_finite_neg (m : positive) (e : Z) : floor_finite true m e < 0.
Proof.
  unfold floor_finite. cbn [cond_Zopp].
  destruct (0 <=? e) eqn:He.
  - apply Z.leb_le in He.
    assert (0 < 2 ^ e) by (apply Z.pow_pos_nonneg; lia). nia.
  - apply Z.leb_gt in He.
    assert (0 < 2 ^ (- e)) by (apply Z.pow_pos_nonneg; lia).
    apply Z.div_lt_upper_bound; lia.
Qed.

Lemma trunc_floor_nonneg (m : positive) (e : Z) :
  trunc_finite false m e = floor_finite false m e.
Proof. unfold trunc_finite, floor_finite. cbn [cond_Zopp]. reflexivity. Qed.

(** The floor of a finite float brackets its value: with [k = -e > 0],
    [floor * 2^k <= (-1)^s * m < (floor + 1) * 2^k]. *)
Lemma floor_finite_bracket (s : bool) (m : positive) (e : Z) :
  e < 0 ->
  floor_finite s m e * 2 ^ (- e) <= cond_Zopp s (Z.pos m)
  /\ cond_Zopp s (Z.pos m) < (floor_finite s m e + 1) * 2 ^ (- e).
Proof.
  intros He. unfold floor_finite.
  destruct (0 <=? e) eqn:E; [apply Z.leb_le in E; lia|].
  assert (Hp : 0 < 2 ^ (- e)) by (apply Z.pow_pos_nonneg; lia).
  pose proof (Z.div_mod (cond_Zopp s (Z.pos m)) (2 ^ (- e)) ltac:(lia)) as Hdm.
  pose proof (Z.mod_pos_bound (cond_Zopp s (Z.pos m)) (2 ^ (- e)) Hp) as Hb.
  nia.
Qed.


Lemma int_of_float_nonpos_floor (x : float) (n : Z) :
  int_of_float x = Ok n -> n <= 0 ->
  exists n', floor_of_float x = Ok n' /\ n' <= 0.
Proof.
  destruct x as [s|s| |s m e]; cbn [int_of_float floor_of_float]; try discriminate.
  - intros [= <-] _. eauto with lia.
  - intros Heq Hn. assert (trunc_finite s m e = n) by congruence.
    eexists; split; [reflexivity|].
    destruct s.
    + pose proof (floor_finite_neg m e). lia.
    + rewrite <- trunc_floor_nonneg. lia.
Qed.

Lemma int_of_float_floor_raise (x : float) (e : exn) :
  int_of_float x = Raise e <-> floor_of_float x = Raise e.
Proof. destruct x; cbn; split; congruence. Qed.

(** ** The shares resolver: the total-assets fallback *)

Section SharesFallback.
Context {RT : Runtime}.





End SharesFallback.

(** ** The valuation pass *)

Section ValuationPass.
Context {RT : Runtime} (W : World).

(** The loop appends one row per ticker, in order, and appends to [missing]
    the tickers of the new rows without shares. *)
Lemma fetch_loop_inv overrides tickers :
  forall rows0 missing0 rows missing,
    fetch_loop W overrides tickers rows0 missing0 = Ok (rows, missing) ->
    exists new,
      rows = (rows0 ++ new)%list
      /\ Forall2 (resolved W overrides) tickers new
      /\ missing = (missing0 ++ map Ticker (List.filter shares_missing new))%list.
Proof.
  induction tickers as [|t ts IH]; intros rows0 missing0 rows missing; cbn.
  - intros [= <- <-]. exists []. by rewrite !app_nil_r.
  - destruct (_get_shares_outstanding W t (_get_last_price W t) overrides)
      as [shares|e] eqn:Hs; cbn; [|discriminate].
    destruct (est_aum_of (_get_last_price W t) shares) as [aum|e] eqn:Ha; cbn;
      [|discriminate].
    intros (new & -> & Hnew & ->)%IH.
    exists (mkRow t (_get_last_price W t) shares aum :: new).
    split; [by rewrite <- app_assoc|]. split.
    + constructor; [|done]. by repeat split.
    + cbn. unfold shares_missing at 2. cbn.
      destruct shares; cbn; [done | by rewrite <- app_assoc].
Qed.

(** Conversely the loop returns whenever each ticker resolves without an
    exception. *)
Lemma fetch_loop_complete overrides tickers :
  forall new rows0 missing0,
    Forall2 (resolved W overrides) tickers new ->
    fetch_loop W overrides tickers rows0 missing0
    = Ok ((rows0 ++ new)%list,
          (missing0 ++ map Ticker (List.filter shares_missing new))%list).
Proof.
  induction tickers as [|t ts IH]; intros new rows0 missing0 HF.
  - apply Forall2_nil_inv_l in HF as ->. cbn. by rewrite !app_nil_r.
  - apply Forall2_cons_inv_l in HF as (r & new' & (Ht & Hp & Hs & Ha) & HF & ->).
    destruct r as [t' p s a]; cbn in *; subst t' p.
    rewrite Hs. cbn. rewrite Ha. cbn.
    rewrite (IH new' _ _ HF). rewrite <- !app_assoc. cbn.
    unfold shares_missing at 2. cbn.
    destruct s; cbn; [done | by rewrite <- app_assoc].
Qed.

Lemma fetch_inv tickers rows missing :
  fetch W tickers = Ok (rows, missing) ->
  Forall2 (resolved W (_load_overrides W SHARES_OVERRIDE_CSV)) (map upper tickers) rows
  /\ missing = map Ticker (List.filter shares_missing rows).
Proof.
  unfold fetch. intros (new & -> & HF & ->)%fetch_loop_inv. done.
Qed.

Lemma Forall2_resolved_In overrides tickers rows r :
  Forall2 (resolved W overrides) tickers rows -> In r rows ->
  In (Ticker r) tickers /\ resolved W overrides (Ticker r) r.
Proof.
  induction 1 as [|t r' ts rs Hr _ IH]; cbn; [done|].
  intros [<-|Hin].
  - destruct Hr as (Ht & Hr). split; [by left|]. rewrite Ht. by split.
  - destruct (IH Hin). split; [by right | done].
Qed.

Lemma Forall2_resolved_ticker overrides tickers rows t :
  Forall2 (resolved W overrides) tickers rows -> In t tickers ->
  exists r, In r rows /\ Ticker r = t.
Proof.
  induction 1 as [|t' r' ts rs Hr _ IH]; cbn; [done|].
  intros [<-|Hin].
  - exists r'. split; [by left | apply Hr].
  - destruct (IH Hin) as (r & ? & ?). exists r. split; [by right | done].
Qed.

(** What [est_aum_of] computes, spelled out. *)
Lemma est_aum_of_inv (price : option float) (shares : option Z) (aum : option float) :
  est_aum_of price shares = Ok aum ->
  match price, shares with
  | Some p, Some n => exists y, float_of_int n = Ok y /\ aum = Some (fmul p y)
  | _, _ => aum = None
  end.
Proof.
  destruct price as [p|], shares as [n|]; cbn; try (by intros [= <-]).
  unfold float_mul_int. destruct (float_of_int n) as [y|e]; cbn; [|discriminate].
  intros [= <-]. eauto.
Qed.

(** C1. In every row of the valuation pass, the estimated AUM is the binary64
    product of the row's price and its shares count (converted to a float,
    as Python does for [float * int]) when both are present, and it is absent
    (not a zero) when the price or the shares are absent. *)
Theorem est_aum_is_price_times_shares tickers rows missing :
  fetch W tickers = Ok (rows, missing) ->
  forall r, In r rows ->
    (forall p n, Last_Price r = Some p -> Shares_Outstanding r = Some n ->
       exists y, float_of_int n = Ok y /\ Est_AUM r = Some (fmul p y))
    /\ (Last_Price r = None \/ Shares_Outstanding r = None ->
        Est_AUM r = None /\ Est_AUM r <> Some fzero).
Proof.
  intros [HF _]%fetch_inv r Hin.
  destruct (Forall2_resolved_In _ _ _ _ HF Hin) as (_ & _ & _ & _ & Ha).
  apply est_aum_of_inv in Ha. split.
  - intros p n Hp Hn. by rewrite Hp, Hn in Ha.
  - intros Habs.
    assert (Est_AUM r = None) as ->; [|done].
    destruct (Last_Price r), (Shares_Outstanding r); try done.
    by destruct Habs.
Qed.

(** C9. After the pass, a ticker is in [missing] exactly when it is in the
    tracked universe and its resolved shares are absent; equivalently when
    one of its rows has no shares. A row whose price alone is absent does not
    put its ticker in the list. *)
Theorem missing_iff_shares_absent tickers rows missing :
  fetch W tickers = Ok (rows, missing) ->
  (forall t, In t missing <->
     In t (map upper tickers)
     /\ _get_shares_outstanding W t (_get_last_price W t)
          (_load_overrides W SHARES_OVERRIDE_CSV) = Ok None)
  /\ (forall t, In t missing <->
        exists r, In r rows /\ Ticker r = t /\ Shares_Outstanding r = None)
  /\ (forall r, In r rows -> Last_Price r = None ->
        Shares_Outstanding r <> None -> ~ In (Ticker r) missing).
Proof.
  intros [HF ->]%fetch_inv.
  assert (Hrow : forall t, In t (map Ticker (List.filter shares_missing rows)) <->
            exists r, In r rows /\ Ticker r = t /\ Shares_Outstanding r = None).
  { intros t. rewrite in_map_iff. split.
    - intros (r & Ht & [Hin Hm]%filter_In). exists r. repeat split; try done.
      unfold shares_missing in Hm. by destruct (Shares_Outstanding r).
    - intros (r & Hin & Ht & Hs). exists r. split; [done|].
      apply filter_In. split; [done|]. unfold shares_missing. by rewrite Hs. }
  assert (Hres : forall t, In t (map Ticker (List.filter shares_missing rows)) <->
            In t (map upper tickers)
            /\ _get_shares_outstanding W t (_get_last_price W t)
                 (_load_overrides W SHARES_OVERRIDE_CSV) = Ok None).
  { intros t. rewrite Hrow. split.
    - intros (r & Hin & Ht & Hs).
      destruct (Forall2_resolved_In _ _ _ _ HF Hin) as (Hu & _ & Hp & Hsh & _).
      rewrite Ht in *. rewrite Hp, Hs in Hsh. done.
    - intros [Hu Hsh].
      destruct (Forall2_resolved_ticker _ _ _ _ HF Hu) as (r & Hin & Ht).
      exists r. repeat split; try done.
      destruct (Forall2_resolved_In _ _ _ _ HF Hin) as (_ & _ & Hp & Hsh' & _).
      rewrite Ht in *. rewrite Hp, Hsh in Hsh'. congruence. }
  split; [done|]. split; [done|].
  intros r Hin _ Hs [_ Hsh]%Hres.
  destruct (Forall2_resolved_In _ _ _ _ HF Hin) as (_ & _ & Hp & Hsh' & _).
  rewrite Hp, Hsh in Hsh'. congruence.
Qed.

End ValuationPass.

(** ** The shares resolver: the override lookup *)

Lemma head_filter_find {A} (f : A -> bool) (l : list A) :
  head (List.filter f l) = List.find f l.
Proof. induction l as [|a l IH]; cbn; [done|]. by destruct (f a). Qed.

Lemma find_first_split {A} (f : A -> bool) (l1 l2 : list A) (a : A) :
  Forall (fun x => f x = false) l1 -> f a = true ->
  List.find f (l1 ++ a :: l2) = Some a.
Proof.
  induction 1 as [|x l1 Hx _ IH]; cbn; intros Ha.
  - by rewrite Ha.
  - rewrite Hx. by apply IH.
Qed.

Lemma has_column_not_empty (df : DataFrame) (col : string) rows :
  has_column df col = true ->
  empty (mkDataFrame (df_columns df) rows) = match rows with [] => true | _ => false end.
Proof.
  unfold has_column, empty. cbn. intros Hin%bool_decide_eq_true.
  destruct (df_columns df); [by apply elem_of_nil in Hin | done].
Qed.

Section Overrides.
Context {RT : Runtime} (W : World).

(** The lookup of [_get_shares_outstanding], by the first row of the frame
    whose ticker cell is the ticker. *)
Lemma shares_outstanding_by_first_row (df : DataFrame) (t : string)
    (last_price : option float) :
  has_column df "ticker" = true ->
  has_column df "shares_outstanding" = true ->
  _get_shares_outstanding W t last_price df =
  match List.find (row_matches "ticker" t) (df_rows df) with
  | Some r =>
      val ← py_int (cell r "shares_outstanding");
      if 0 <? val then Ok (Some val)
      else _infer_shares_from_info W t last_price
  | None => _infer_shares_from_info W t last_price
  end.
Proof.
  intros Ht Hs. unfold _get_shares_outstanding, loc_eq. rewrite Ht. cbn.
  rewrite (has_column_not_empty df "ticker" _ Ht).
  rewrite <- head_filter_find.
  unfold iloc_first, row_getitem, has_column in *. cbn.
  destruct (List.filter (row_matches "ticker" t) (df_rows df)) as [|r rs]; cbn;
    [done|].
  by rewrite Hs.
Qed.


(** With no row for the ticker, and with a first row whose count is not
    positive, the resolver goes on to the fundamentals. *)
Lemma no_override_row (df : DataFrame) (t : string) (last_price : option float) :
  has_column df "ticker" = true ->
  has_column df "shares_outstanding" = true ->
  List.find (row_matches "ticker" t) (df_rows df) = None ->
  _get_shares_outstanding W t last_price df = _infer_shares_from_info W t last_price.
Proof. intros Ht Hs Hf. by rewrite shares_outstanding_by_first_row, Hf. Qed.


End Overrides.

(** ** The overrides load *)

Lemma cell_insert_eq (r : gmap string pyval) (c : string) (v : pyval) :
  cell (<[c := v]> r) c = v.
Proof. unfold cell. by rewrite lookup_insert_eq. Qed.

Lemma cell_insert_ne (r : gmap string pyval) (c c' : string) (v : pyval) :
  c <> c' -> cell (<[c := v]> r) c' = cell r c'.
Proof. intros Hne. unfold cell. by rewrite lookup_insert_ne. Qed.

Lemma zip_with_map_r {A B C} (g : A -> B -> C) (h : A -> B) (l : list A) :
  zip_with g l (map h l) = map (fun a => g a (h a)) l.
Proof. induction l as [|a l IH]; cbn; [done | by rewrite IH]. Qed.

Lemma mapM_Forall2 {A B} (f : A -> result B) (l : list A) (l' : list B) :
  mapM f l = Ok l' <-> Forall2 (fun a b => f a = Ok b) l l'.
Proof.
  revert l'. induction l as [|a l IH]; intros l'; cbn.
  - split; [intros [= <-]; constructor | by intros ->%Forall2_nil_inv_l].
  - destruct (f a) as [b|e] eqn:Ha; cbn.
    + destruct (mapM f l) as [bs|e] eqn:Hl; cbn.
      * split.
        -- intros [= <-]. constructor; [done | by apply IH].
        -- intros (b' & bs' & Hb & Hbs & ->)%Forall2_cons_inv_l.
           apply IH in Hbs. congruence.
      * split; [discriminate|].
        intros (b' & bs' & Hb & Hbs & ->)%Forall2_cons_inv_l.
        apply IH in Hbs. congruence.
    + split; [discriminate|].
      intros (b' & bs' & Hb & Hbs & ->)%Forall2_cons_inv_l. congruence.
Qed.

Lemma zip_with_Forall2_In {A B C} (P : A -> B -> Prop) (g : A -> B -> C)
    (l : list A) (l' : list B) (c : C) :
  Forall2 P l l' -> In c (zip_with g l l') ->
  exists a b, In a l /\ P a b /\ c = g a b.
Proof.
  induction 1 as [|a b l l' Hab _ IH]; cbn; [done|].
  intros [<-|Hin].
  - exists a, b. auto.
  - destruct (IH Hin) as (a' & b' & ? & ? & ?). exists a', b'. auto.
Qed.

Lemma has_column_setitem (df : DataFrame) (col col' : string) (vs : list pyval) :
  has_column df col' = true -> has_column (setitem df col vs) col' = true.
Proof.
  unfold has_column at 1 2, setitem. cbn. intros Hin%bool_decide_eq_true.
  apply bool_decide_eq_true. destruct (has_column df col); [done|].
  apply elem_of_app. by left.
Qed.

Lemma has_column_setitem_ne (df : DataFrame) (col col' : string) (vs : list pyval) :
  col <> col' -> has_column (setitem df col vs) col' = has_column df col'.
Proof.
  intros Hne. unfold has_column at 1, setitem. cbn.
  destruct (has_column df col); [done|]. unfold has_column.
  apply bool_decide_ext. rewrite elem_of_app, list_elem_of_singleton.
  split; [intros [?|?]; [done | congruence] | by left].
Qed.

Lemma has_column_setitem_eq (df : DataFrame) (col : string) (vs : list pyval) :
  has_column (setitem df col vs) col = true.
Proof.
  unfold has_column at 1, setitem. cbn. apply bool_decide_eq_true.
  destruct (has_column df col) eqn:Hc.
  - by apply bool_decide_eq_true in Hc.
  - apply elem_of_app. right. by apply list_elem_of_singleton.
Qed.


Lemma no_missing_upper_cell (v : pyval) :
  isna (upper_cell v) = false -> exists s, upper_cell v = VStr (upper s).
Proof. destruct v; cbn; try discriminate. eauto. Qed.

Lemma setitem_columns (df : DataFrame) (col : string) (vs : list pyval) :
  has_column df col = true -> df_columns (setitem df col vs) = df_columns df.
Proof. intros Hc. unfold setitem. cbn. by rewrite Hc. Qed.

Lemma has_column_same_columns (df : DataFrame) rows (col : string) :
  has_column (mkDataFrame (df_columns df) rows) col = has_column df col.
Proof. done. Qed.

Section Load.
Context {RT : Runtime} (W : World).

Lemma astype_int_cell_int (v v' : pyval) :
  astype_int_cell v = Ok v' -> exists n, v' = VInt n.
Proof.
  destruct v as [ |b|n|x|s|t]; cbn; try discriminate.
  - intros [= <-]. eauto.
  - intros [= <-]. eauto.
  - destruct x; try discriminate; intros [= <-]; eauto.
  - destruct (int_of_str s) as [n|]; [|discriminate].
    destruct (in_int64 n); [|discriminate]. intros [= <-]. eauto.
Qed.

(** The rows left by [dropna], with their tickers upper-cased, and the load
    once the file is read and has a ticker column of strings. *)
Lemma load_overrides_unfold (path : string) (df0 : DataFrame) :
  read_csv W path = Ok df0 ->
  has_column df0 "ticker" = true ->
  is_object_column (map (fun r => cell r "ticker") (df_rows df0)) = true ->
  _load_overrides W path =
  if has_column df0 "shares_outstanding" then
    match astype_int (map (fun r => cell r "shares_outstanding") (kept_rows df0)) with
    | Ok so =>
        mkDataFrame (df_columns df0)
          (zip_with (fun r v => <["shares_outstanding" := v]> r) (kept_rows df0) so)
    | Raise _ => empty_frame ["ticker"; "shares_outstanding"]
    end
  else empty_frame ["ticker"; "shares_outstanding"].
Proof.
  intros Hcsv Ht Hobj. unfold _load_overrides. rewrite Hcsv.
  unfold mbind, result_bind. cbn [bind].
  unfold getitem at 1. rewrite Ht. cbn [bind].
  unfold str_upper. rewrite Hobj. cbn [bind].
  unfold dropna. cbn [forallb].
  rewrite (has_column_setitem_eq df0 "ticker"), andb_true_r. cbn [andb].
  rewrite has_column_setitem_ne by done.
  destruct (has_column df0 "shares_outstanding") eqn:Hs; [|done]. cbn [bind].
  unfold getitem. rewrite (setitem_columns _ _ _ Ht), has_column_same_columns, Hs.
  cbn [bind df_rows setitem]. rewrite map_map, zip_with_map_r.
  fold (kept_rows df0).
  destruct (astype_int _) as [so|e]; [|done]. cbn [bind].
  unfold setitem. by rewrite has_column_same_columns, Hs.
Qed.


(** What the load returns in each case: the empty frame when a step raises,
    and the frame of [load_overrides_ok] otherwise. *)
Lemma load_overrides_cases (path : string) :
  _load_overrides W path = empty_frame ["ticker"; "shares_outstanding"]
  \/ exists df0 so,
       read_csv W path = Ok df0
       /\ has_column df0 "ticker" = true
       /\ has_column df0 "shares_outstanding" = true
       /\ astype_int (map (fun r => cell r "shares_outstanding") (kept_rows df0)) = Ok so
       /\ _load_overrides W path =
          mkDataFrame (df_columns df0)
            (zip_with (fun r v => <["shares_outstanding" := v]> r) (kept_rows df0) so).
Proof.
  destruct (read_csv W path) as [df0|e] eqn:Hcsv;
    [|left; unfold _load_overrides; by rewrite Hcsv].
  destruct (has_column df0 "ticker") eqn:Ht;
    [|left; unfold _load_overrides, getitem; rewrite Hcsv; cbn; by rewrite Ht].
  destruct (is_object_column (map (fun r => cell r "ticker") (df_rows df0))) eqn:Hobj;
    [|left; unfold _load_overrides, getitem, str_upper; rewrite Hcsv; cbn;
      rewrite Ht; cbn; by rewrite Hobj].
  rewrite (load_overrides_unfold path df0 Hcsv Ht Hobj).
  destruct (has_column df0 "shares_outstanding") eqn:Hs; [|by left].
  destruct (astype_int _) as [so|e] eqn:Hso; [|by left].
  right. exists df0, so. by repeat split.
Qed.

(** Every row of the loaded frame has an upper-cased ticker string and an
    integer count. *)
Lemma load_overrides_rows (path : string) (r : gmap string pyval) :
  In r (df_rows (_load_overrides W path)) ->
  (exists s, cell r "ticker" = VStr (upper s))
  /\ (exists n, cell r "shares_outstanding" = VInt n).
Proof.
  destruct (load_overrides_cases path)
    as [-> | (df0 & so & _ & _ & _ & Hso & ->)]; cbn; [done|].
  apply mapM_Forall2, Forall2_fmap_l in Hso.
  intros Hin.
  eapply zip_with_Forall2_In in Hin as (r2 & v & Hr2 & Hv & ->); [|exact Hso].
  cbn in Hv. unfold kept_rows in Hr2. apply filter_In in Hr2 as [Hr2 Hkeep].
  apply in_map_iff in Hr2 as (r0 & <- & Hr0).
  unfold no_missing in Hkeep. cbn [forallb] in Hkeep.
  rewrite cell_insert_eq in Hkeep.
  apply andb_true_iff in Hkeep as [Hk1 _]. apply negb_true_iff in Hk1.
  rewrite cell_insert_eq, cell_insert_ne, cell_insert_eq by done.
  split; [by apply no_missing_upper_cell | by eapply astype_int_cell_int].
Qed.

Lemma load_overrides_columns (path : string) :
  has_column (_load_overrides W path) "ticker" = true
  /\ has_column (_load_overrides W path) "shares_outstanding" = true.
Proof.
  destruct (load_overrides_cases path)
    as [-> | (df0 & so & _ & Ht & Hs & _ & ->)]; [done|].
  by rewrite !has_column_same_columns.
Qed.

End Load.

Section LoadProperties.
Context {RT : Runtime} (W : World).

Lemma empty_overrides_fall_through (t : string) (last_price : option float) :
  _get_shares_outstanding W t last_price (empty_frame ["ticker"; "shares_outstanding"])
  = _infer_shares_from_info W t last_price.
Proof. reflexivity. Qed.

(** C10. Whenever loading the overrides fails (the file is missing or cannot
    be parsed, a required column is missing, the data is malformed), the
    load returns the empty frame with the two columns instead of raising,
    and with it the shares resolver goes straight to the fundamentals
    fallbacks, for every ticker. *)
Theorem load_failure_gives_empty_overrides (path : string) :
  load_failure W path ->
  _load_overrides W path = empty_frame ["ticker"; "shares_outstanding"]
  /\ df_rows (_load_overrides W path) = []
  /\ forall t last_price,
       _get_shares_outstanding W t last_price (_load_overrides W path)
       = _infer_shares_from_info W t last_price.
Proof.
  intros Hfail.
  assert (Hempty : _load_overrides W path = empty_frame ["ticker"; "shares_outstanding"]).
  { destruct Hfail as [e Hcsv | df0 Hcsv Hcol | df0 Hcsv Ht Hobj | df0 e Hcsv Ht Hobj Hso].
    - unfold _load_overrides. by rewrite Hcsv.
    - destruct (load_overrides_cases W path)
        as [Hl | (df0' & so & Hcsv' & Ht & Hs & _)]; [done|].
      assert (df0' = df0) as -> by congruence.
      destruct Hcol; congruence.
    - unfold _load_overrides, getitem, str_upper. rewrite Hcsv. cbn.
      rewrite Ht. cbn. by rewrite Hobj.
    - rewrite (load_overrides_unfold W path df0 Hcsv Ht Hobj), Hso.
      by destruct (has_column df0 "shares_outstanding"). }
  rewrite Hempty. split; [done|]. split; [done|]. intros t last_price.
  apply empty_overrides_fall_through.
Qed.



End LoadProperties.

(** ** Duplicate override rows *)

Section DuplicateRows.
Context {RT : Runtime}.

(** C7, as the code has it. When the overrides frame holds several rows for
    a ticker, the resolver reads the first of them: a positive count there is
    the value used, and a count there that is not positive sends the
    resolver to the fundamentals, whatever the later rows hold. *)
Theorem first_override_row_wins (df : DataFrame) (t : string)
    (l1 l2 : list (gmap string pyval)) (r : gmap string pyval) (v : Z) :
  has_column df "ticker" = true ->
  has_column df "shares_outstanding" = true ->
  df_rows df = (l1 ++ r :: l2)%list ->
  Forall (fun r' => row_matches "ticker" t r' = false) l1 ->
  row_matches "ticker" t r = true ->
  py_int (cell r "shares_outstanding") = Ok v ->
  forall (W : World) (last_price : option float),
    _get_shares_outstanding W t last_price df =
    if 0 <? v then Ok (Some v) else _infer_shares_from_info W t last_price.
Proof.
  intros Ht Hs Hrows Hl1 Hr Hv W last_price.
  rewrite shares_outstanding_by_first_row by done.
  rewrite Hrows, (find_first_split _ l1 l2 r Hl1 Hr). by rewrite Hv.
Qed.

End DuplicateRows.

(** ** The price resolver *)

Section PriceResolver.
Context {RT : Runtime} (W : World).

Lemma price_field_usable_iff (v : pyval) :
  price_field_usable v = true <-> v <> VNone /\ v <> VFloat S754_nan.
Proof.
  destruct v as [ |b|n|x|s|o]; cbn; try (split; [done | intros; done]).
  - split; [done | by intros [? _]].
  - destruct x; cbn; split; try done. by intros [_ ?].
Qed.

Lemma scan_price_fields_spec (fi : gmap string pyval) (keys : list string) (x : float) :
  scan_price_fields fi keys = Some x <->
  exists ks1 k ks2,
    keys = (ks1 ++ k :: ks2)%list
    /\ Forall (fun k' => field_rejected (dict_get fi k')) ks1
    /\ field_accepted (dict_get fi k) x.
Proof.
  induction keys as [|k keys IH]; cbn.
  - split; [discriminate|]. intros (ks1 & k & ks2 & Hk & _). by destruct ks1.
  - destruct (price_field_usable (dict_get fi k)) eqn:Hu.
    + destruct (py_float (dict_get fi k)) as [y|e] eqn:Hf.
      * split.
        -- intros [= <-]. exists [], k, keys. by repeat split.
        -- intros (ks1 & k' & ks2 & Hk & Hrej & Hacc).
           destruct ks1 as [|k1 ks1]; cbn in Hk; injection Hk as <- Hk.
           ++ destruct Hacc as [_ Hacc]. congruence.
           ++ apply Forall_cons in Hrej as [[Hrej|[e Hrej]] _]; congruence.
      * rewrite IH. split.
        -- intros (ks1 & k' & ks2 & -> & Hrej & Hacc).
           exists (k :: ks1), k', ks2. repeat split; try apply Hacc.
           constructor; [right; eauto | done].
        -- intros (ks1 & k' & ks2 & Hk & Hrej & Hacc).
           destruct ks1 as [|k1 ks1]; cbn in Hk; injection Hk as <- Hk.
           ++ destruct Hacc as [_ Hacc]. congruence.
           ++ apply Forall_cons in Hrej as [_ Hrej]. eauto 6.
    + rewrite IH. split.
      * intros (ks1 & k' & ks2 & -> & Hrej & Hacc).
        exists (k :: ks1), k', ks2. repeat split; try apply Hacc.
        constructor; [by left | done].
      * intros (ks1 & k' & ks2 & Hk & Hrej & Hacc).
        destruct ks1 as [|k1 ks1]; cbn in Hk; injection Hk as <- Hk.
        -- destruct Hacc as [Hacc _]. congruence.
        -- apply Forall_cons in Hrej as [_ Hrej]. eauto 6.
Qed.

(** C4, as the code has it. The price resolver returns absent or a float.
    In step 1 it returns the value of the first candidate field that is
    present (not [None]), is not a float NaN and converts to a float, and it
    does so whatever the sign of the value: a float that is zero or negative
    is accepted as it is. *)
Theorem last_price_first_usable_field (ticker : string) (x : float) :
  ((exists ks1 k ks2,
      PRICE_FIELDS = (ks1 ++ k :: ks2)%list
      /\ Forall (fun k' => field_rejected (dict_get (_get_fast_info W ticker) k')) ks1
      /\ field_accepted (dict_get (_get_fast_info W ticker) k) x) ->
   _get_last_price W ticker = Some x)
  /\ (scan_price_fields (_get_fast_info W ticker) PRICE_FIELDS = Some x <->
      exists ks1 k ks2,
        PRICE_FIELDS = (ks1 ++ k :: ks2)%list
        /\ Forall (fun k' => field_rejected (dict_get (_get_fast_info W ticker) k')) ks1
        /\ field_accepted (dict_get (_get_fast_info W ticker) k) x)
  /\ (forall v, price_field_usable v = true <-> v <> VNone /\ v <> VFloat S754_nan)
  /\ (isnan x = false -> field_accepted (VFloat x) x).
Proof.
  split; [|split; [|split]].
  - intros Hex. apply scan_price_fields_spec in Hex.
    unfold _get_last_price. by rewrite Hex.
  - apply scan_price_fields_spec.
  - apply price_field_usable_iff.
  - intros Hx. split; [|done]. cbn. by rewrite Hx.
Qed.

End PriceResolver.

(** ** The portfolio total *)

Section Total.
Context {RT : Runtime}.

Lemma present_aums_app (l1 l2 : list ValuationRow) :
  present_aums (l1 ++ l2) = (present_aums l1 ++ present_aums l2)%list.
Proof. apply omap_app. Qed.

Lemma present_aums_cons (r : ValuationRow) (rows : list ValuationRow) :
  present_aums (r :: rows)
  = from_option (fun y => y :: present_aums rows) (present_aums rows) (Est_AUM r).
Proof. reflexivity. Qed.

Lemma map_nan_to_zero_id (xs : list float) :
  Forall (fun x => isnan x = false) xs -> map nan_to_zero xs = xs.
Proof.
  induction 1 as [|x xs Hx _ IH]; [done|].
  cbn. unfold nan_to_zero at 1. by rewrite Hx, IH.
Qed.

(** Rows whose AUM is absent or NaN put only zeros in the summed array. *)
Lemma unresolved_rows_sum_zeros (rows : list ValuationRow) :
  Forall (fun r => Est_AUM r = None \/ Est_AUM r = Some fnan) rows ->
  forallb float_is_zero (map nan_to_zero (present_aums rows)) = true.
Proof.
  induction 1 as [|r rows Hr _ IH]; [done|].
  rewrite present_aums_cons. by destruct Hr as [-> | ->].
Qed.

(** C8, as the code has it. For a list of rows that is not empty, the total
    is numpy's sum over the AUM values that are present, each NaN among them
    replaced by zero: a row whose AUM is absent contributes nothing, a row
    whose AUM is NaN contributes zero, and where no present AUM is NaN the
    total is the sum of the present values. The total is zero for an empty
    list and for a list whose AUMs are all absent (or NaN). *)
Theorem total_est_sums_present_aums (rows : list ValuationRow) :
  np_sum_lawful RT ->
  (rows <> [] -> total_est rows = np_sum (map nan_to_zero (present_aums rows)))
  /\ (forall l1 r l2,
        rows = (l1 ++ r :: l2)%list -> Est_AUM r = None -> (l1 ++ l2)%list <> [] ->
        total_est rows = total_est (l1 ++ l2))
  /\ (forall l1 r l2,
        rows = (l1 ++ r :: l2)%list -> Est_AUM r = Some fnan ->
        total_est rows
        = total_est (l1 ++ mkRow (Ticker r) (Last_Price r) (Shares_Outstanding r)
                                 (Some fzero) :: l2))
  /\ (Forall (fun x => isnan x = false) (present_aums rows) -> rows <> [] ->
      total_est rows = sum_of_present_aums rows)
  /\ (Forall (fun r => Est_AUM r = None \/ Est_AUM r = Some fnan) rows ->
      float_is_zero (total_est rows) = true).
Proof.
  intros [Hzeros _].
  split; [|split; [|split; [|split]]].
  - by destruct rows.
  - intros l1 r l2 -> Hr Hne.
    assert (Hp : present_aums (l1 ++ r :: l2) = present_aums (l1 ++ l2)).
    { rewrite !present_aums_app. f_equal. by rewrite present_aums_cons, Hr. }
    unfold total_est. rewrite Hp.
    destruct (l1 ++ l2)%list eqn:E; [done|]. by destruct l1.
  - intros l1 r l2 -> Hr.
    set (r' := mkRow (Ticker r) (Last_Price r) (Shares_Outstanding r) (Some fzero)).
    assert (Hp : map nan_to_zero (present_aums (l1 ++ r :: l2))
                 = map nan_to_zero (present_aums (l1 ++ r' :: l2))).
    { rewrite !present_aums_app, !map_app. f_equal.
      by rewrite !present_aums_cons, Hr. }
    unfold total_est, np_nansum. rewrite Hp. by destruct l1.
  - intros Hnan Hne. unfold sum_of_present_aums.
    destruct rows as [|r rows]; [done|].
    unfold total_est, np_nansum. by rewrite map_nan_to_zero_id.
  - intros Habs. destruct rows as [|r rows]; [done|].
    unfold total_est, np_nansum. by apply Hzeros, unresolved_rows_sum_zeros.
Qed.

(** Under every lawful summation, a present AUM that is NaN separates the
    total from the plain sum of the present values. *)
Lemma total_est_differs_on_nan (r : ValuationRow) :
  np_sum_lawful RT -> Est_AUM r = Some fnan ->
  float_is_zero (total_est [r]) = true /\ isnan (sum_of_present_aums [r]) = true.
Proof.
  intros [Hzeros Hnan] Hr. split.
  - unfold total_est, np_nansum. apply Hzeros.
    rewrite present_aums_cons, Hr. done.
  - unfold sum_of_present_aums. apply Hnan.
    rewrite present_aums_cons, Hr. done.
Qed.

End Total.


(** A value the fallback yields is positive. *)
Lemma total_assets_fallback_pos {RT : Runtime}
    (info : gmap string pyval) (last_price : option float) (n : Z) :
  total_assets_fallback info last_price = Some n -> 0 < n.
Proof.
  unfold total_assets_fallback. cbn zeta.
  destruct (_ && _); [|discriminate].
  destruct (est_shares_of _ _) as [k|e]; [|discriminate].
  destruct (0 <? k) eqn:Hk; [|discriminate].
  apply Z.ltb_lt in Hk. by intros [= <-].
Qed.

(** ** The shares resolver: the direct shares field *)

Section DirectShares.
Context {RT : Runtime} (W : World).

(** A direct shares figure that is a positive finite float is returned
    truncated towards zero, not rounded. *)
Lemma direct_shares_truncated (t : string) (last_price : option float)
    (m : positive) (e : Z) :
  py_or (dict_get (_get_info W t) "sharesOutstanding")
        (dict_get (_get_info W t) "fundSharesOutstanding")
  = VFloat (S754_finite false m e) ->
  _infer_shares_from_info W t last_price = Ok (Some (trunc_finite false m e)).
Proof. intros Hs. unfold _infer_shares_from_info. cbn zeta. by rewrite Hs. Qed.

Lemma trunc_finite_nonneg (m : positive) (e : Z) : 0 <= trunc_finite false m e.
Proof.
  unfold trunc_finite. cbn [cond_Zopp].
  destruct (0 <=? e) eqn:He.
  - apply Z.leb_le in He.
    assert (0 < 2 ^ e) by (apply Z.pow_pos_nonneg; lia). nia.
  - apply Z.leb_gt in He. apply Z.div_pos; [lia|].
    apply Z.pow_pos_nonneg; lia.
Qed.

Lemma py_int_gt0_nonneg (v : pyval) (n : Z) :
  is_int_or_float v = true -> num_gt0 v = true -> py_int v = Ok n -> 0 <= n.
Proof.
  destruct v as [ |b|k|x|s|o]; cbn; try discriminate.
  - intros _ -> [= <-]. done.
  - intros _ Hk%Z.ltb_lt [= <-]. lia.
  - intros _ [->|(m & e & ->)]%float_gt0_cases; cbn [int_of_float]; [discriminate|].
    intros Heq. assert (trunc_finite false m e = n) as <- by congruence.
    apply trunc_finite_nonneg.
Qed.

(** What does hold of the result of the shares resolver on every path: it is
    absent or an integer that is not negative. *)
Lemma shares_outstanding_nonneg (t : string) (last_price : option float)
    (df : DataFrame) (n : Z) :
  _get_shares_outstanding W t last_price df = Ok (Some n) -> 0 <= n.
Proof.
  assert (Hinfer : _infer_shares_from_info W t last_price = Ok (Some n) -> 0 <= n).
  { unfold _infer_shares_from_info. cbn zeta.
    destruct (is_int_or_float _) eqn:Hi; cbn [andb].
    - destruct (num_gt0 _) eqn:Hg.
      + destruct (py_int _) as [k|e] eqn:Hk; cbn; [|discriminate].
        intros [= <-]. by eapply py_int_gt0_nonneg.
      + intros [= Hfb]. pose proof (total_assets_fallback_pos _ _ _ Hfb). lia.
    - intros [= Hfb]. pose proof (total_assets_fallback_pos _ _ _ Hfb). lia. }
  unfold _get_shares_outstanding.
  destruct (loc_eq df "ticker" t) as [row|e]; cbn; [|discriminate].
  destruct (empty row); cbn [negb]; [done|].
  destruct (iloc_first row "shares_outstanding") as [c|e]; cbn; [|discriminate].
  destruct (py_int c) as [val|e]; cbn; [|discriminate].
  destruct (0 <? val) eqn:Hv; [|done].
  apply Z.ltb_lt in Hv. intros [= <-]. lia.
Qed.

End DirectShares.

(** ** The sequential sum is a lawful sum *)

Lemma fold_fadd_zeros (xs : list float) (acc : float) :
  float_is_zero acc = true -> forallb float_is_zero xs = true ->
  float_is_zero (fold_left fadd xs acc) = true.
Proof.
  revert acc. induction xs as [|x xs IH]; intros acc Hacc; cbn; [done|].
  intros [Hx Hxs]%andb_true_iff. apply IH; [|done].
  destruct acc as [sa| | |]; try discriminate.
  destruct x as [sx| | |]; try discriminate.
  by destruct sa, sx.
Qed.

Lemma fold_fadd_nan_acc (xs : list float) : fold_left fadd xs fnan = fnan.
Proof. induction xs as [|x xs IH]; cbn; [done | exact IH]. Qed.

Lemma fold_fadd_nan (xs : list float) (acc : float) :
  existsb isnan xs = true -> isnan (fold_left fadd xs acc) = true.
Proof.
  revert acc. induction xs as [|x xs IH]; intros acc; cbn; [discriminate|].
  intros [Hx|Hxs]%orb_true_iff.
  - destruct x; try discriminate.
    replace (fadd acc S754_nan) with fnan by (by destruct acc).
    by rewrite fold_fadd_nan_acc.
  - by apply IH.
Qed.

Lemma runtime_lawful : np_sum_lawful runtime.
Proof.
  split; intros xs Hxs.
  - by apply fold_fadd_zeros.
  - by apply fold_fadd_nan.
Qed.

(** ** The program on concrete worlds *)

Example scenario1_fetch :
  @fetch runtime scenario1 ["A"; "B"] = Ok (scenario1_rows, ["B"])
  /\ @total_est runtime scenario1_rows = f64 10000 0.
Proof. split; vm_compute; reflexivity. Qed.

Example scenario2_fetch :
  @fetch runtime scenario2 ["C"]
  = Ok ([mkRow "C" (Some (f64 25 0)) (Some 200000) (Some (f64 5000000 0))], []).
Proof. vm_compute. reflexivity. Qed.

(** A last bar without a close gives a NaN price and a NaN AUM, which the
    total leaves out. *)
Example nan_close_fetch :
  @fetch runtime nan_close ["LRGC"] = Ok ([nan_row], [])
  /\ @total_est runtime [nan_row] = fzero.
Proof. split; vm_compute; reflexivity. Qed.

(** [int] truncates: 2.75 and -2.75 *)
Example int_truncates :
  int_of_float (f64 11 (-2)) = Ok 2 /\ int_of_float (SFopp (f64 11 (-2))) = Ok (-2)
  /\ floor_of_float (SFopp (f64 11 (-2))) = Ok (-3).
Proof. repeat split. Qed.

Lemma est_aum_is_price_times_shares_witness :
  @fetch runtime scenario1 ["A"; "B"] = Ok (scenario1_rows, ["B"])
  /\ forall r, In r scenario1_rows ->
       (forall p n, Last_Price r = Some p -> Shares_Outstanding r = Some n ->
          exists y, float_of_int n = Ok y /\ Est_AUM r = Some (fmul p y))
       /\ (Last_Price r = None \/ Shares_Outstanding r = None ->
           Est_AUM r = None /\ Est_AUM r <> Some fzero).
Proof.
  split; [vm_compute; reflexivity|].
  apply (@est_aum_is_price_times_shares runtime scenario1 ["A"; "B"] scenario1_rows ["B"]).
  vm_compute; reflexivity.
Defined.

Lemma missing_iff_shares_absent_witness :
  @fetch runtime scenario1 ["A"; "B"] = Ok (scenario1_rows, ["B"])
  /\ (In "B" ["B"] <->
      In "B" (map upper ["A"; "B"])
      /\ @_get_shares_outstanding runtime scenario1 "B" (@_get_last_price runtime scenario1 "B")
           (@_load_overrides runtime scenario1 SHARES_OVERRIDE_CSV) = Ok None).
Proof.
  split; [vm_compute; reflexivity|].
  apply (@missing_iff_shares_absent runtime scenario1 ["A"; "B"] scenario1_rows ["B"]).
  vm_compute; reflexivity.
Defined.



Lemma load_failure_gives_empty_overrides_witness :
  @load_failure runtime one_column SHARES_OVERRIDE_CSV
  /\ @_load_overrides runtime one_column SHARES_OVERRIDE_CSV
     = empty_frame ["ticker"; "shares_outstanding"]
  /\ @load_failure runtime offline SHARES_OVERRIDE_CSV
  /\ @_load_overrides runtime offline SHARES_OVERRIDE_CSV
     = empty_frame ["ticker"; "shares_outstanding"].
Proof.
  assert (H1 : @load_failure runtime one_column SHARES_OVERRIDE_CSV).
  { eapply missing_column; [vm_compute; reflexivity | right; vm_compute; reflexivity]. }
  assert (H2 : @load_failure runtime offline SHARES_OVERRIDE_CSV).
  { eapply read_failure. vm_compute; reflexivity. }
  split; [exact H1|]. split.
  - apply (@load_failure_gives_empty_overrides runtime one_column SHARES_OVERRIDE_CSV H1).
  - split; [exact H2|].
    apply (@load_failure_gives_empty_overrides runtime offline SHARES_OVERRIDE_CSV H2).
Defined.


Lemma first_override_row_wins_witness :
  df_rows duplicate_rows = ([] ++ override_row "A" 100 :: [override_row "A" 200])%list
  /\ row_matches "ticker" "A" (override_row "A" 100) = true
  /\ row_matches "ticker" "A" (override_row "A" 200) = true
  /\ @_get_shares_outstanding runtime offline "A" None duplicate_rows = Ok (Some 100).
Proof.
  split; [vm_compute; reflexivity|]. split; [vm_compute; reflexivity|].
  split; [vm_compute; reflexivity|].
  apply (@first_override_row_wins runtime duplicate_rows "A" []
           [override_row "A" 200] (override_row "A" 100) 100);
    first [by constructor | vm_compute; reflexivity].
Defined.

Lemma last_price_first_usable_field_witness :
  @field_rejected runtime (dict_get (_get_fast_info negative_quote "LRGC") "last_price")
  /\ @field_accepted runtime
       (dict_get (_get_fast_info negative_quote "LRGC") "regularMarketPrice")
       (SFopp (f64 2 0))
  /\ @_get_last_price runtime negative_quote "LRGC" = Some (SFopp (f64 2 0)).
Proof.
  assert (Hrej : @field_rejected runtime (dict_get (_get_fast_info negative_quote "LRGC") "last_price")).
  { left. vm_compute; reflexivity. }
  assert (Hacc : @field_accepted runtime
            (dict_get (_get_fast_info negative_quote "LRGC") "regularMarketPrice")
            (SFopp (f64 2 0))).
  { split; vm_compute; reflexivity. }
  split; [exact Hrej|]. split; [exact Hacc|].
  apply (@last_price_first_usable_field runtime negative_quote "LRGC" (SFopp (f64 2 0))).
  exists ["last_price"], "regularMarketPrice", ["currentPrice"].
  split; [reflexivity|]. split; [by constructor | exact Hacc].
Defined.

Lemma total_est_sums_present_aums_witness :
  np_sum_lawful runtime
  /\ @total_est runtime (scenario1_rows ++ [nan_row])
     = @np_sum runtime (map nan_to_zero (present_aums (scenario1_rows ++ [nan_row])))
  /\ @total_est runtime (scenario1_rows ++ [nan_row]) = @total_est runtime scenario1_rows
  /\ float_is_zero (@total_est runtime [mkRow "B" None None None; nan_row]) = true.
Proof.
  destruct (@total_est_sums_present_aums runtime (scenario1_rows ++ [nan_row])
              runtime_lawful) as (Hsum & _).
  destruct (@total_est_sums_present_aums runtime [mkRow "B" None None None; nan_row]
              runtime_lawful) as (_ & _ & _ & _ & Hzero).
  split; [exact runtime_lawful|].
  split; [by apply Hsum|]. split; [vm_compute; reflexivity|].
  apply Hzero. constructor; [by left|]. constructor; [by right|]. constructor.
Defined.

(** C4: a zero last price is returned as it is. *)
Lemma last_price_can_be_zero :
  ~ (forall (RT : Runtime) (W : World) (ticker : string),
       match _get_last_price W ticker with
       | Some x => float_gt0 x = true
       | None => True
       end).
Proof.
  intros H. specialize (H runtime zero_quote "LRGC").
  vm_compute in H. discriminate H.
Qed.


(** C7: with two rows for a ticker, the second count is not the one used. *)
Lemma last_override_row_not_used :
  ~ (forall (RT : Runtime) (W : World) (t : string) (last_price : option float)
            (r : gmap string pyval) (v : Z),
       last (List.filter (row_matches "ticker" t)
               (df_rows (_load_overrides W SHARES_OVERRIDE_CSV))) = Some r ->
       cell r "shares_outstanding" = VInt v -> 0 < v ->
       _get_shares_outstanding W t last_price (_load_overrides W SHARES_OVERRIDE_CSV)
       = Ok (Some v)).
Proof.
  intros H.
  specialize (H runtime (with_csv duplicate_rows offline) "A" None
                (override_row "A" 200) 200).
  assert (Hres : @_get_shares_outstanding runtime (with_csv duplicate_rows offline) "A" None
            (@_load_overrides runtime (with_csv duplicate_rows offline) SHARES_OVERRIDE_CSV)
          = Ok (Some 100)) by (vm_compute; reflexivity).
  rewrite Hres in H.
  assert (Hc : @Ok (option Z) (Some 100) = Ok (Some 200)).
  { apply H; first [lia | vm_compute; reflexivity]. }
  discriminate Hc.
Qed.

(** C8: a NaN AUM is present but is not added to the total. *)
Lemma total_est_skips_nan :
  ~ (forall (RT : Runtime) (rows : list ValuationRow),
       total_est rows = sum_of_present_aums rows).
Proof.
  intros H. specialize (H runtime [nan_row]).
  vm_compute in H. discriminate H.
Qed.

(** C5: half a share outstanding passes the test [shares > 0] and is then
    truncated, and the resolver returns zero shares. *)
Lemma fractional_shares_resolve_to_zero :
  @_get_shares_outstanding runtime half_share "LRGC" None
    (@_load_overrides runtime half_share SHARES_OVERRIDE_CSV) = Ok (Some 0)
  /\ @_infer_shares_from_info runtime half_share "LRGC" None = Ok (Some 0)
  /\ @fetch runtime half_share ["LRGC"] = Ok ([mkRow "LRGC" None (Some 0) None], []).
Proof. repeat split. Qed.

(* ===================================================================== *)
(** * Further properties of the pass                                      *)
(* ===================================================================== *)

Section PassShape.
Context {RT : Runtime} (W : World).

Lemma Forall2_resolved_tickers overrides tickers rows :
  Forall2 (resolved W overrides) tickers rows -> map Ticker rows = tickers.
Proof.
  induction 1 as [|t r ts rs Hr _ IH]; cbn; [done|].
  destruct Hr as [-> _]. by rewrite IH.
Qed.

(** X1. The pass builds exactly one row per configured ticker, in the
    configured order and under the upper-cased name; it removes no
    duplicate, and each row holds the price the price resolver gives for its
    ticker. *)
Theorem fetch_one_row_per_ticker tickers rows missing :
  fetch W tickers = Ok (rows, missing) ->
  map Ticker rows = map upper tickers
  /\ length rows = length tickers
  /\ Forall (fun r => Last_Price r = _get_last_price W (Ticker r)) rows.
Proof.
  intros [HF _]%fetch_inv.
  pose proof (Forall2_resolved_tickers _ _ _ HF) as Hmap.
  split; [done|]. split.
  - rewrite <- (length_map Ticker), Hmap. apply length_map.
  - apply Forall_forall. intros r Hin%list_elem_of_In.
    by destruct (Forall2_resolved_In W _ _ _ _ HF Hin) as (_ & _ & Hp & _).
Qed.

(** *** Exceptions that leave the pass *)

Lemma float_of_int_raise (n : Z) (e : exn) :
  float_of_int n = Raise e -> e = OverflowError.
Proof.
  unfold float_of_int. destruct (binary_normalize prec emax n 0 false); congruence.
Qed.

Lemma py_int_raise_gt0 (v : pyval) (e : exn) :
  is_int_or_float v = true -> num_gt0 v = true -> py_int v = Raise e ->
  e = OverflowError /\ v = VFloat (S754_infinity false).
Proof.
  destruct v as [ |b|k|x|s|o]; cbn; try discriminate.
  intros _ [->|(m & ex & ->)]%float_gt0_cases; cbn; [|discriminate].
  by intros [= <-].
Qed.

Lemma infer_shares_raise_iff (t : string) (last_price : option float) (e : exn) :
  _infer_shares_from_info W t last_price = Raise e <->
  e = OverflowError /\ direct_shares W t = VFloat (S754_infinity false).
Proof.
  unfold _infer_shares_from_info, direct_shares. cbn zeta. split.
  - destruct (is_int_or_float _) eqn:Hi; cbn [andb]; [|discriminate].
    destruct (num_gt0 _) eqn:Hg; [|discriminate].
    destruct (py_int _) as [n|e'] eqn:Hn; cbn; [discriminate|].
    intros [= <-]. by eapply py_int_raise_gt0.
  - intros [-> ->]. reflexivity.
Qed.

(** On the loaded overrides the lookup itself never raises: what the
    resolver raises comes from the fundamentals. *)
Lemma shares_outstanding_loaded_raise (path : string) (t : string)
    (last_price : option float) (e : exn) :
  _get_shares_outstanding W t last_price (_load_overrides W path) = Raise e ->
  e = OverflowError /\ direct_shares W t = VFloat (S754_infinity false).
Proof.
  destruct (load_overrides_columns W path) as [Ht Hs].
  rewrite shares_outstanding_by_first_row by done.
  destruct (List.find _ _) as [r|] eqn:Hf.
  - apply find_some in Hf as [Hin _].
    apply load_overrides_rows in Hin as [_ (n & ->)]. cbn.
    destruct (0 <? n); [discriminate|]. apply infer_shares_raise_iff.
  - apply infer_shares_raise_iff.
Qed.

Lemma est_aum_of_raise (price : option float) (shares : option Z) (e : exn) :
  est_aum_of price shares = Raise e ->
  e = OverflowError
  /\ exists p n, price = Some p /\ shares = Some n /\ float_of_int n = Raise OverflowError.
Proof.
  destruct price as [p|], shares as [n|]; cbn; try discriminate.
  unfold float_mul_int. destruct (float_of_int n) as [y|e'] eqn:Hn; cbn; [discriminate|].
  intros [= <-]. pose proof (float_of_int_raise _ _ Hn) as ->. eauto 6.
Qed.

Lemma fetch_loop_raise overrides tickers (e : exn) :
  forall rows0 missing0,
    fetch_loop W overrides tickers rows0 missing0 = Raise e ->
    exists t, In t tickers
      /\ (_get_shares_outstanding W t (_get_last_price W t) overrides = Raise e
          \/ exists s, _get_shares_outstanding W t (_get_last_price W t) overrides = Ok s
               /\ est_aum_of (_get_last_price W t) s = Raise e).
Proof.
  induction tickers as [|t ts IH]; intros rows0 missing0; cbn; [discriminate|].
  destruct (_get_shares_outstanding W t (_get_last_price W t) overrides)
    as [s|e'] eqn:Hs; cbn.
  - destruct (est_aum_of (_get_last_price W t) s) as [a|e'] eqn:Ha; cbn.
    + intros (t' & Hin & Hc)%IH. exists t'. split; [by right | done].
    + intros [= <-]. exists t. split; [by left|]. right. exists s.
      by rewrite Hs.
  - intros [= <-]. exists t. split; [by left|]. left. by rewrite Hs.
Qed.


(** The pass returns when neither cause is there. *)
Lemma fetch_returns tickers :
  (forall t, In t (map upper tickers) ->
     direct_shares W t <> VFloat (S754_infinity false)
     /\ forall p n, _get_last_price W t = Some p -> float_of_int n <> Raise OverflowError) ->
  exists rows missing, fetch W tickers = Ok (rows, missing).
Proof.
  intros Hok. destruct (fetch W tickers) as [[rows missing]|e] eqn:Hf; [eauto|].
  unfold fetch in Hf. apply fetch_loop_raise in Hf as (t & Hin & Hc).
  destruct (Hok t Hin) as [Hd Hn].
  destruct Hc as [Hr | (s & Hs & Ha)].
  - by apply shares_outstanding_loaded_raise in Hr as [_ Hr].
  - apply est_aum_of_raise in Ha as (_ & p & n & Hp & _ & Hc).
    by destruct (Hn p n Hp).
Qed.

End PassShape.

(** ** The pass when the provider is down *)

Section ProviderDown.
Context {RT : Runtime} (W : World).
Hypothesis Hdown : provider_down W.

Lemma provider_down_no_price (t : string) : _get_last_price W t = None.
Proof.
  destruct (Hdown t) as ((e1 & H1) & _ & _ & (e4 & H4)).
  unfold _get_last_price, _get_fast_info. by rewrite H1, H4.
Qed.

Lemma provider_down_no_info (t : string) : _get_info W t = ∅.
Proof.
  destruct (Hdown t) as (_ & (e2 & H2) & (e3 & H3) & _).
  unfold _get_info. by rewrite H2, H3.
Qed.

Lemma provider_down_infer (t : string) (last_price : option float) :
  _infer_shares_from_info W t last_price = Ok None.
Proof.
  unfold _infer_shares_from_info. by rewrite provider_down_no_info.
Qed.

(** With the provider down, shares come from a positive override or not at
    all. *)
Lemma provider_down_shares (path : string) (t : string) (last_price : option float) :
  _get_shares_outstanding W t last_price (_load_overrides W path) = Ok None
  \/ exists n, 0 < n
       /\ _get_shares_outstanding W t last_price (_load_overrides W path) = Ok (Some n).
Proof.
  destruct (load_overrides_columns W path) as [Ht Hs].
  rewrite shares_outstanding_by_first_row by done.
  destruct (List.find _ _) as [r|] eqn:Hf.
  - apply find_some in Hf as [Hin _].
    apply load_overrides_rows in Hin as [_ (n & ->)]. cbn.
    destruct (0 <? n) eqn:Hn.
    + right. exists n. by apply Z.ltb_lt in Hn.
    + left. apply provider_down_infer.
  - left. apply provider_down_infer.
Qed.

(** X3. When every call to the provider raises, the pass still returns: one
    row per ticker, every price and every AUM absent, the total zero; a
    ticker has shares only from a positive override and is listed as missing
    otherwise. No exception of the provider reaches the caller. *)
Theorem provider_down_pass_returns (tickers : list string) :
  np_sum_lawful RT ->
  exists rows missing,
    fetch W tickers = Ok (rows, missing)
    /\ map Ticker rows = map upper tickers
    /\ Forall (fun r => Last_Price r = None /\ Est_AUM r = None
                        /\ (Shares_Outstanding r = None
                            \/ exists n, Shares_Outstanding r = Some n /\ 0 < n)) rows
    /\ float_is_zero (total_est rows) = true.
Proof.
  intros [Hzeros _].
  assert (Hret : exists rows missing, fetch W tickers = Ok (rows, missing)).
  { apply fetch_returns. intros t _. split.
    - unfold direct_shares. by rewrite provider_down_no_info.
    - intros p n Hp. by rewrite provider_down_no_price in Hp. }
  destruct Hret as (rows & missing & Hf). exists rows, missing.
  split; [done|].
  pose proof (fetch_inv W _ _ _ Hf) as [HF _].
  split; [by eapply Forall2_resolved_tickers|].
  assert (Hrows : Forall (fun r => Last_Price r = None /\ Est_AUM r = None
                        /\ (Shares_Outstanding r = None
                            \/ exists n, Shares_Outstanding r = Some n /\ 0 < n)) rows).
  { apply Forall_forall. intros r Hin%list_elem_of_In.
    destruct (Forall2_resolved_In W _ _ _ _ HF Hin) as (_ & _ & Hp & Hs & Ha).
    rewrite provider_down_no_price in Hp. rewrite Hp in Hs, Ha. cbn in Ha.
    split; [done|]. split; [congruence|].
    destruct (provider_down_shares SHARES_OVERRIDE_CSV (Ticker r) None)
      as [Hn | (n & Hpos & Hn)]; rewrite Hn in Hs.
    - left. congruence.
    - right. exists n. split; [congruence | done]. }
  split; [done|].
  destruct rows as [|r rows]; [done|].
  unfold total_est, np_nansum. apply Hzeros, unresolved_rows_sum_zeros.
  eapply Forall_impl; [exact Hrows|]. cbn. intros r' (_ & Ha & _). by left.
Qed.

End ProviderDown.

(** ** The price resolver: the last bar *)

Section LastBar.
Context {RT : Runtime} (W : World).

Lemma scan_price_fields_none (fi : gmap string pyval) (keys : list string) :
  scan_price_fields fi keys = None <->
  Forall (fun k => field_rejected (dict_get fi k)) keys.
Proof.
  induction keys as [|k keys IH]; cbn; [by split|].
  destruct (price_field_usable (dict_get fi k)) eqn:Hu.
  - destruct (py_float (dict_get fi k)) as [x|e] eqn:Hf.
    + split; [discriminate|].
      intros [[Hr|(e & Hr)] _]%Forall_cons; congruence.
    + rewrite IH. split.
      * intros HF. constructor; [right; eauto | done].
      * by intros [_ HF]%Forall_cons.
  - rewrite IH. split.
    + intros HF. constructor; [by left | done].
    + by intros [_ HF]%Forall_cons.
Qed.

Lemma empty_iff (df : DataFrame) :
  empty df = true <-> df_columns df = [] \/ df_rows df = [].
Proof.
  unfold empty. destruct (df_columns df), (df_rows df); cbn;
    (split; [first [discriminate | auto] | first [by intros [?|?] | done]]).
Qed.

Lemma iloc_last_snoc (df : DataFrame) (bars : list (gmap string pyval))
    (bar : gmap string pyval) (col : string) :
  df_rows df = (bars ++ [bar])%list -> has_column df col = true ->
  iloc_last df col = Ok (cell bar col) /\ empty df = false.
Proof.
  intros Hrows Hc. unfold iloc_last, row_getitem. rewrite Hrows, last_snoc, Hc.
  split; [done|]. apply not_true_iff_false. intros [Hcols|Hr]%empty_iff.
  - unfold has_column in Hc. rewrite Hcols in Hc. done.
  - rewrite Hrows in Hr. by destruct bars.
Qed.

(** X4. When no candidate field of the quote is usable, the price is the
    close of the last bar of the history, converted to a float; and the
    price is absent exactly when no field is usable and the history call
    raises, or has no bar, or has no [Close] column, or the last close does
    not convert. *)
Theorem last_price_from_last_bar (ticker : string) :
  (forall hist bars bar x,
     Forall (fun k => field_rejected (dict_get (_get_fast_info W ticker) k)) PRICE_FIELDS ->
     history W ticker = Ok hist ->
     df_rows hist = (bars ++ [bar])%list ->
     has_column hist "Close" = true ->
     py_float (cell bar "Close") = Ok x ->
     _get_last_price W ticker = Some x)
  /\ (_get_last_price W ticker = None <->
      Forall (fun k => field_rejected (dict_get (_get_fast_info W ticker) k)) PRICE_FIELDS
      /\ match history W ticker with
         | Raise _ => True
         | Ok hist =>
             df_rows hist = [] \/ has_column hist "Close" = false
             \/ exists bars bar e,
                  df_rows hist = (bars ++ [bar])%list
                  /\ py_float (cell bar "Close") = Raise e
         end).
Proof.
  split.
  - intros hist bars bar x Hrej Hh Hrows Hc Hx.
    apply scan_price_fields_none in Hrej.
    unfold _get_last_price. rewrite Hrej, Hh. cbn.
    destruct (iloc_last_snoc hist bars bar "Close" Hrows Hc) as [-> ->]. cbn.
    by rewrite Hx.
  - unfold _get_last_price.
    destruct (scan_price_fields _ PRICE_FIELDS) as [x|] eqn:Hscan.
    { split; [discriminate|]. intros [Hrej%scan_price_fields_none _]. congruence. }
    apply scan_price_fields_none in Hscan.
    destruct (history W ticker) as [hist|e]; cbn; [|by split].
    destruct (has_column hist "Close") eqn:Hc.
    + destruct (df_rows hist) as [|r rs] eqn:Hrows using rev_ind.
      * assert (empty hist = true) as -> by (apply empty_iff; by right).
        cbn. split; [intros _; split; [done | by left] | done].
      * clear IHrs.
        destruct (iloc_last_snoc hist rs r "Close" Hrows Hc) as [-> ->]. cbn.
        destruct (py_float (cell r "Close")) as [x|e] eqn:Hx; cbn.
        -- split; [discriminate|].
           intros [_ [Hnil | [? | (bars & bar & e & Hb & He)]]].
           ++ by destruct rs.
           ++ done.
           ++ apply app_inj_tail in Hb as [_ <-]. congruence.
        -- split; [|done]. intros _. split; [done|]. right. right. eauto.
    + split; [|intros _].
      * intros _. split; [done|]. right. by left.
      * destruct (empty hist); cbn; [done|].
        unfold iloc_last, row_getitem. rewrite Hc. by destruct (last (df_rows hist)).
Qed.

End LastBar.

(** ** The shares resolver: alternate field names *)

Section AlternateNames.
Context {RT : Runtime}.

Lemma dict_get_insert_ne (d : gmap string pyval) (k k' : string) (v : pyval) :
  k <> k' -> dict_get (<[k := v]> d) k' = dict_get d k'.
Proof. intros Hne. unfold dict_get. by rewrite lookup_insert_ne. Qed.

(** X5. The second name of a fundamentals figure is read only when the
    value under the first name is falsy. A [sharesOutstanding] that is truthy
    but unusable (negative, a string) therefore hides
    [fundSharesOutstanding], and a truthy [totalAssets] hides [netAssets]:
    whatever those second fields hold, the shares resolver gives the same
    result. *)
Theorem first_name_hides_second (W : World) (t : string)
    (d : gmap string pyval) (last_price : option float) :
  _get_info W t = d ->
  (truthy (dict_get d "sharesOutstanding") = true ->
   forall (W' : World) (v : pyval),
     _get_info W' t = <["fundSharesOutstanding" := v]> d ->
     _infer_shares_from_info W' t last_price = _infer_shares_from_info W t last_price)
  /\ (truthy (dict_get d "totalAssets") = true ->
      forall (W' : World) (v : pyval),
        _get_info W' t = <["netAssets" := v]> d ->
        _infer_shares_from_info W' t last_price = _infer_shares_from_info W t last_price).
Proof.
  intros Hd. split; intros Htruthy W' v Hd'.
  - assert (H1 : dict_get (_get_info W' t) "sharesOutstanding"
                 = dict_get d "sharesOutstanding")
      by (rewrite Hd'; by rewrite dict_get_insert_ne).
    assert (H2 : total_assets_of (_get_info W' t) = total_assets_of d)
      by (unfold total_assets_of; rewrite Hd'; by rewrite !dict_get_insert_ne).
    unfold _infer_shares_from_info, total_assets_fallback. cbn zeta.
    rewrite H2. unfold py_or. rewrite H1, Hd. by rewrite Htruthy.
  - assert (H1 : forall k, k <> "netAssets" ->
                 dict_get (_get_info W' t) k = dict_get d k)
      by (intros k Hk; rewrite Hd'; by rewrite dict_get_insert_ne).
    unfold _infer_shares_from_info, total_assets_fallback, total_assets_of, py_or.
    cbn zeta. rewrite !H1 by done. rewrite Hd. by rewrite Htruthy.
Qed.

End AlternateNames.

(** ** The overrides file, end to end *)

Section OverridesFile.
Context {RT : Runtime} (W : World).










End OverridesFile.

(** ** The query parameters *)

Lemma lower_ascii_is_1 (c : ascii) :
  Ascii.eqb (lower_ascii c) "1" = Ascii.eqb c "1".
Proof. by destruct c as [[] [] [] [] [] [] [] []]. Qed.

Lemma lower_ascii_is_y (c : ascii) :
  Ascii.eqb (lower_ascii c) "y" = Ascii.eqb c "y" || Ascii.eqb c "Y".
Proof. by destruct c as [[] [] [] [] [] [] [] []]. Qed.

Lemma one_char_kiosk_word (c : ascii) :
  String (lower_ascii c) EmptyString ∈ KIOSK_WORDS <->
  c = "1"%char \/ c = "y"%char \/ c = "Y"%char.
Proof.
  unfold KIOSK_WORDS. rewrite !elem_of_cons, elem_of_nil. split.
  - intros [H | [H | [H | [H | H]]]]; try done; try discriminate H; injection H as H.
    + left. apply Ascii.eqb_eq. rewrite <- lower_ascii_is_1. by apply Ascii.eqb_eq.
    + right. apply Ascii.eqb_eq in H. rewrite lower_ascii_is_y in H.
      apply orb_true_iff in H as [H|H]; apply Ascii.eqb_eq in H; auto.
  - intros [-> | [-> | ->]]; auto.
Qed.

Section QueryParameters.
Context {RT : Runtime}.

Lemma get_query_params_current (St : Streamlit) (d : gmap string string) (k : string) :
  query_params St = Ok d -> get_query_params St !! k = QStr <$> (d !! k).
Proof. intros Hd. unfold get_query_params. rewrite Hd. apply lookup_fmap. Qed.

(** X9. Under the current API, where a parameter is a string, only the
    first character of the parameter is read: kiosk mode is on exactly when
    that character is [1], [y] or [Y] (so [kiosk=true] leaves it off), and
    the refresh interval is what [int] makes of that one character, with the
    default when it makes nothing of it. *)
Theorem current_api_reads_first_character (St : Streamlit) (d : gmap string string) :
  query_params St = Ok d ->
  (forall c rest, d !! "kiosk" = Some (String c rest) ->
     kiosk (get_query_params St)
     = Ok (bool_decide (c = "1"%char \/ c = "y"%char \/ c = "Y"%char)))
  /\ (forall c rest, d !! "refresh" = Some (String c rest) ->
        refresh_ms (get_query_params St)
        = default DEFAULT_REFRESH_MS (int_of_str (String c EmptyString))).
Proof.
  intros Hd. split; intros c rest Hk.
  - unfold kiosk. rewrite (get_query_params_current St d _ Hd), Hk. cbn.
    f_equal. apply bool_decide_ext, one_char_kiosk_word.
  - unfold refresh_ms. rewrite (get_query_params_current St d _ Hd), Hk. cbn.
    by destruct (int_of_str _).
Qed.

(** X10. The kiosk flag is computed outside any [try]: it raises, with
    [IndexError], exactly when the parameter is present and empty (an empty
    string, an empty list). The refresh interval is guarded: on the same
    empty value it is the default. *)
Theorem kiosk_raises_iff_empty (qp : gmap string qvalue) (e : exn) :
  (kiosk qp = Raise e <->
   e = IndexError
   /\ (qp !! "kiosk" = Some (QStr EmptyString) \/ qp !! "kiosk" = Some (QList [])))
  /\ (qp !! "refresh" = Some (QStr EmptyString) \/ qp !! "refresh" = Some (QList []) ->
      refresh_ms qp = DEFAULT_REFRESH_MS).
Proof.
  split.
  - unfold kiosk. destruct (qp !! "kiosk") as [[[|c s]|[|x l]]|]; cbn; split;
      first [ by intros [-> _]
            | discriminate
            | intros [= <-]; by auto
            | intros [_ [H | H]]; by inversion H ].
  - unfold refresh_ms. by intros [-> | ->].
Qed.

End QueryParameters.

(** ** The further properties on concrete worlds *)

Lemma fetch_one_row_per_ticker_witness :
  @fetch runtime scenario1 ["a"; "b"; "a"]
  = Ok ((scenario1_rows ++ [mkRow "A" (Some (f64 10 0)) (Some 1000) (Some (f64 10000 0))])%list,
        ["B"])
  /\ map Ticker (scenario1_rows
                 ++ [mkRow "A" (Some (f64 10 0)) (Some 1000) (Some (f64 10000 0))])%list
     = map upper ["a"; "b"; "a"].
Proof.
  split; [vm_compute; reflexivity|].
  apply (@fetch_one_row_per_ticker runtime scenario1 ["a"; "b"; "a"] _ ["B"]).
  vm_compute; reflexivity.
Defined.


Lemma provider_down_pass_returns_witness :
  provider_down lower_case_file
  /\ np_sum_lawful runtime
  /\ exists rows missing,
       @fetch runtime lower_case_file ["LRGC"; "ILOW"] = Ok (rows, missing)
       /\ map Ticker rows = map upper ["LRGC"; "ILOW"]
       /\ Forall (fun r => Last_Price r = None /\ Est_AUM r = None
                           /\ (Shares_Outstanding r = None
                               \/ exists n, Shares_Outstanding r = Some n /\ 0 < n)) rows
       /\ float_is_zero (@total_est runtime rows) = true.
Proof.
  assert (Hdown : provider_down lower_case_file).
  { intros t. repeat split; by exists OSError. }
  split; [exact Hdown|]. split; [exact runtime_lawful|].
  exact (@provider_down_pass_returns runtime lower_case_file Hdown
           ["LRGC"; "ILOW"] runtime_lawful).
Defined.

Lemma last_price_from_last_bar_witness :
  history two_bars "LRGC"
  = Ok (mkDataFrame ["Close"] [ {[ "Close" := VFloat (f64 30 0) ]};
                                {[ "Close" := VFloat (f64 63 (-1)) ]} ])
  /\ @_get_last_price runtime two_bars "LRGC" = Some (f64 63 (-1)).
Proof.
  split; [reflexivity|].
  destruct (@last_price_from_last_bar runtime two_bars "LRGC") as [Hbar _].
  apply (Hbar (mkDataFrame ["Close"] [ {[ "Close" := VFloat (f64 30 0) ]};
                                       {[ "Close" := VFloat (f64 63 (-1)) ]} ])
              [ {[ "Close" := VFloat (f64 30 0) ]} ]
              {[ "Close" := VFloat (f64 63 (-1)) ]}).
  - repeat constructor; left; vm_compute; reflexivity.
  - reflexivity.
  - reflexivity.
  - vm_compute; reflexivity.
  - vm_compute; reflexivity.
Defined.

Lemma first_name_hides_second_witness :
  truthy (dict_get bogus_shares "sharesOutstanding") = true
  /\ @_infer_shares_from_info runtime bogus_and_fund "LRGC" None
     = @_infer_shares_from_info runtime bogus_only "LRGC" None
  /\ @_infer_shares_from_info runtime bogus_and_fund "LRGC" None = Ok None.
Proof.
  split; [vm_compute; reflexivity|]. split; [|vm_compute; reflexivity].
  destruct (@first_name_hides_second runtime bogus_only "LRGC" bogus_shares None)
    as [Hshares _]; [vm_compute; reflexivity|].
  apply (Hshares ltac:(vm_compute; reflexivity) bogus_and_fund (VInt 1000)).
  vm_compute; reflexivity.
Defined.




Lemma current_api_reads_first_character_witness :
  query_params kiosk_true_url = Ok {[ "kiosk" := "true"; "refresh" := "10000" ]}
  /\ kiosk (get_query_params kiosk_true_url) = Ok false
  /\ @refresh_ms runtime (get_query_params kiosk_true_url) = 1.
Proof.
  split; [reflexivity|].
  destruct (@current_api_reads_first_character runtime kiosk_true_url _ eq_refl)
    as [Hk Hr].
  split.
  - rewrite (Hk "t"%char "rue"); [reflexivity | vm_compute; reflexivity].
  - rewrite (Hr "1"%char "0000"); [reflexivity | vm_compute; reflexivity].
Defined.

Lemma kiosk_raises_iff_empty_witness :
  get_query_params kiosk_empty_url !! "kiosk" = Some (QStr EmptyString)
  /\ kiosk (get_query_params kiosk_empty_url) = Raise IndexError.
Proof.
  assert (Hk : get_query_params kiosk_empty_url !! "kiosk" = Some (QStr EmptyString))
    by (vm_compute; reflexivity).
  split; [exact Hk|].
  destruct (@kiosk_raises_iff_empty runtime (get_query_params kiosk_empty_url) IndexError)
    as [[_ Hraise] _].
  apply Hraise. split; [reflexivity | by left].
Defined.
